(** * backend/server.py: a shallow embedding of the route-tracker service

    The handlers of [backend/server.py] are embedded as functions over
    explicit inputs: the process environment ([Env]), the authentication
    backend chosen at import time ([Backend]), the in-memory simulation
    table and the random generator ([World]), and what the outside world
    answers during one request ([Oracle]: the clock, a fresh uuid, a bcrypt
    salt and the HTTP exchange with the external APIs).

    Python exceptions are values of [exn]; a handler's outcome is a
    [Result], [Returned] when the function returns (FastAPI answers 200)
    and [Raised] when an exception leaves it.  Logging calls have no
    influence on any result and are left out.

    A float is the rational its binary64 value denotes, and every float
    operation rounds its exact result to the nearest binary64 number, ties
    to even ([round64]).  A point in time is the number of microseconds
    since the epoch, the resolution of [datetime]; a request reads the
    clock once. *)

From Stdlib Require Import ZArith QArith Qround Qabs Qpower Lqa List Bool Ascii.
From stdpp Require Import gmap strings pretty.

Set Warnings "-register-all".

Open Scope Z_scope.
Open Scope string_scope.
Open Scope list_scope.

(** ** Python values *)

(** What [response.json()] yields, and the content of Python dicts. *)
Inductive JSON : Type :=
| JNull
| JBool (b : bool)
| JNum (q : Q)
| JStr (s : string)
| JArr (l : list JSON)
| JObj (o : list (string * JSON)).

(** A dict is an association list; the first binding of a key is the live one. *)
Abbreviation dict := (list (string * JSON)).

Fixpoint dict_lookup (k : string) (o : dict) : option JSON :=
  match o with
  | [] => None
  | (k', v) :: o' => if String.eqb k k' then Some v else dict_lookup k o'
  end.

(** [d.update({k: v})] *)
Fixpoint dict_update (k : string) (v : JSON) (o : dict) : dict :=
  match o with
  | [] => [(k, v)]
  | (k', v') :: o' =>
      if String.eqb k k' then (k, v) :: o' else (k', v') :: dict_update k v o'
  end.

(** [bool(v)] *)
Definition truthy (v : JSON) : bool :=
  match v with
  | JNull => false
  | JBool b => b
  | JNum q => negb (Qeq_bool q 0)
  | JStr s => negb (String.eqb s "")
  | JArr l => match l with [] => false | _ => true end
  | JObj o => match o with [] => false | _ => true end
  end.

(** [a or b] *)
Definition py_or (a b : JSON) : JSON := if truthy a then a else b.

(** [v == s] for a string literal [s] *)
Definition eq_str (v : JSON) (s : string) : bool :=
  match v with JStr s' => String.eqb s' s | _ => false end.

(** [not os.environ.get(...)]: the variable is unset or empty. *)
Definition unset (x : option string) : bool :=
  match x with None => true | Some s => String.eqb s "" end.

(** ** Exceptions and results *)

Inductive exn : Type :=
| HTTPException (status_code : Z) (detail : string)
| ExpiredSignatureError          (* jwt.ExpiredSignatureError *)
| InvalidTokenError              (* any other jwt.InvalidTokenError *)
| TimeoutException               (* httpx.TimeoutException *)
| TransportError (why : string)  (* any other exception of the HTTP client *)
| JSONDecodeError
| AttributeError
| TypeError
| KeyError
| ValidationError                (* pydantic *)
| BcryptValueError.              (* the ValueError of bcrypt *)

Inductive Result (A : Type) : Type :=
| Returned (a : A)
| Raised (e : exn).
Arguments Returned {A} a.
Arguments Raised {A} e.

#[global] Instance Result_ret : MRet Result := fun _ a => Returned a.
#[global] Instance Result_bind : MBind Result := fun _ _ f m =>
  match m with
  | Returned a => f a
  | Raised e => Raised e
  end.
#[global] Instance Result_fmap : FMap Result := fun _ _ f m =>
  match m with
  | Returned a => Returned (f a)
  | Raised e => Raised e
  end.

(** [try: body except ...: handler]; the handler answers [None] for an
    exception no clause matches, which then propagates. *)
Definition try_except {A} (body : Result A) (handler : exn -> option (Result A))
  : Result A :=
  match body with
  | Returned a => Returned a
  | Raised e => match handler e with Some r => r | None => Raised e end
  end.

(** The status code FastAPI answers with. *)
Definition status_of {A} (r : Result A) : Z :=
  match r with
  | Returned _ => 200
  | Raised (HTTPException c _) => c
  | Raised _ => 500
  end.

(** [v.get(k)] and [v.get(k, default)]: only dicts have [get]. *)
Definition py_get_default (v : JSON) (k : string) (d : JSON) : Result JSON :=
  match v with
  | JObj o => Returned (default d (dict_lookup k o))
  | _ => Raised AttributeError
  end.

Definition py_get (v : JSON) (k : string) : Result JSON := py_get_default v k JNull.

(** [v[k]] for a string key *)
Definition py_getitem (v : JSON) (k : string) : Result JSON :=
  match v with
  | JObj o => match dict_lookup k o with
              | Some x => Returned x
              | None => Raised KeyError
              end
  | _ => Raised TypeError
  end.

Definition chars (s : string) : list JSON :=
  (fun c => JStr (String c "")) <$> String.list_ascii_of_string s.

(** [for x in v]: lists give their items, dicts their keys, strings their
    characters; nothing else is iterable. *)
Definition py_iter (v : JSON) : Result (list JSON) :=
  match v with
  | JArr l => Returned l
  | JObj o => Returned (JStr <$> remove_dups (o.*1))
  | JStr s => Returned (chars s)
  | _ => Raised TypeError
  end.

(** [len(v)] *)
Definition py_len (v : JSON) : Result Z :=
  match v with
  | JArr l => Returned (Z.of_nat (length l))
  | JObj o => Returned (Z.of_nat (length (remove_dups (o.*1))))
  | JStr s => Returned (Z.of_nat (String.length s))
  | _ => Raised TypeError
  end.

(** [v[0]] *)
Definition py_first (v : JSON) : Result JSON :=
  match v with
  | JArr (x :: _) => Returned x
  | JArr [] => Raised KeyError
  | JStr (String c _) => Returned (JStr (String c ""))
  | JStr EmptyString => Raised KeyError
  | JObj _ => Raised KeyError
  | _ => Raised TypeError
  end.

(** ** Library functions the handlers call

    Functions of Python and of third-party packages whose code is not part
    of the service are taken as parameters. *)
Class Runtime : Type := {
  (** the builtin [str] *)
  py_str : JSON -> string;
  (** [datetime.strptime(s, '%Y-%m-%d %H:%M:%S')] read as UTC, in
      microseconds; [None] is the [ValueError] of a string in another
      format *)
  strptime : string -> option Z;
  (** [datetime.isoformat] *)
  isoformat : Z -> string;
  (** pydantic's validation of a [float] field; [None] is a [ValidationError] *)
  to_float : JSON -> option Q;
  (** pydantic's validation of an [EmailStr] field: the normalised
      address, or [None] for the [ValidationError] of a string that is no
      e-mail address *)
  validate_email : string -> option string;
  (** [bcrypt.hashpw password salt] and [bcrypt.checkpw password hashed];
      [None] is the [ValueError] bcrypt raises, for a password of more
      than 72 bytes or a salt it cannot read *)
  hashpw : string -> string -> option string;
  checkpw : string -> string -> option bool
}.

(** pydantic's validation of a [str] field *)
Definition validate_str (v : JSON) : Result string :=
  match v with JStr s => Returned s | _ => Raised ValidationError end.

(** pydantic's validation of an [Optional[str]] field *)
Definition validate_opt_str (v : JSON) : Result (option string) :=
  match v with
  | JNull => Returned None
  | JStr s => Returned (Some s)
  | _ => Raised ValidationError
  end.

Definition validate_float {rt : Runtime} (v : JSON) : Result Q :=
  match to_float v with Some q => Returned q | None => Raised ValidationError end.

Definition validate_opt_float {rt : Runtime} (v : JSON) : Result (option Q) :=
  match v with
  | JNull => Returned None
  | _ => q ← validate_float v; mret (Some q)
  end.

(** ** The HTTP exchange with the external APIs *)

Record HttpCall : Type := {
  http_method : string;
  url : string;
  params : list (string * string);
  json_body : option JSON;
  headers : list (string * string)
}.

Inductive Body : Type :=
| NotJson (text : string)
| Json (data : JSON).

Inductive Upstream : Type :=
| Timeout
| Failed (why : string)
| Response (status_code : Z) (body : Body).

(** [await client.post(...)] / [await client.get(...)] *)
Definition send (net : HttpCall -> Upstream) (c : HttpCall) : Result (Z * Body) :=
  match net c with
  | Timeout => Raised TimeoutException
  | Failed why => Raised (TransportError why)
  | Response s b => Returned (s, b)
  end.

(** [response.json()] *)
Definition response_json (b : Body) : Result JSON :=
  match b with
  | NotJson _ => Raised JSONDecodeError
  | Json d => Returned d
  end.

(** ** Configuration and state *)

Record Env : Type := {
  LOC_API_BASEURL : option string;
  LOC_API_TOKEN : option string;
  MYTRIPS_API_BASEURL : option string;
  SECRET_KEY : string;
  DEBUG_MODE : bool
}.

(** The mock identity exists only when [MOCK_AUTH_ENABLED]; its e-mail is
    an address [EmailStr] accepts, as the default is. *)
Record MockIdentity : Type := {
  MOCK_USERNAME : string;
  MOCK_PASSWORD : string;
  MOCK_USER_EMAIL : string;
  MOCK_USER_ID : string
}.

(** A document of [db.users]. *)
Record UserDoc : Type := {
  doc_id : string;
  doc_username : string;
  doc_email : string;
  doc_created_at : Z;
  doc_password : string
}.

(** Lines 27-44: with [MOCK_AUTH_ENABLED] the mock identity is defined and
    [db] is [None]; without it [db] is the Mongo database and the mock
    names are not defined. *)
Inductive Backend : Type :=
| MockAuth (m : MockIdentity)
| Mongo (users : list UserDoc).

Definition MOCK_AUTH_ENABLED (b : Backend) : bool :=
  match b with MockAuth _ => true | Mongo _ => false end.

Definition ALGORITHM : string := "HS256".
Definition ACCESS_TOKEN_EXPIRE_MINUTES : Z := 1440.

(** ** Tokens

    A symbolic model of the [jwt] package used with one HMAC algorithm: a
    bearer string is either a payload signed under some key, or any other
    text.  A signature cannot be forged: only [encode] with the key makes a
    token that [decode] with that key accepts. *)
Module jwt.

Inductive token : Type :=
| Signed (key : string) (payload : dict)
| Garbage (text : string).

(** [int(q)]: truncation towards zero *)
Definition py_int (q : Q) : Z := Z.quot (Qnum q) (Z.pos (Qden q)).

(** [timegm(t.utctimetuple())]: the whole seconds of a point in time *)
Definition timegm (t : Z) : Z := t / 1000000.

(** A [datetime] among the claims, as [encode] writes it into the payload:
    cut to whole seconds. *)
Definition datetime_claim (t : Z) : JSON := JNum (inject_Z (timegm t)).

(** [jwt.encode(payload, key, algorithm=ALGORITHM)], for a payload whose
    [datetime] claims are written with [datetime_claim] *)
Definition encode (payload : dict) (key : string) : token := Signed key payload.

(** The checks of a time claim: [int(payload[claim])], then the comparison
    with the clock that [late] makes; a claim that is no number is
    refused. *)
Definition check_time (claim : string) (late : Z -> bool) (e : exn)
    (payload : dict) : Result unit :=
  match dict_lookup claim payload with
  | None => Returned tt
  | Some (JNum q) => if late (py_int q) then Raised e else Returned tt
  | Some _ => Raised InvalidTokenError
  end.

(** The check of [sub] and of [jti]: a string when there is one *)
Definition check_str (claim : string) (payload : dict) : Result unit :=
  match dict_lookup claim payload with
  | None | Some (JStr _) => Returned tt
  | Some _ => Raised InvalidTokenError
  end.

(** The check of [aud] when [decode] is given no audience: the claim is
    absent or empty *)
Definition check_aud (payload : dict) : Result unit :=
  match dict_lookup "aud" payload with
  | None => Returned tt
  | Some v => if truthy v then Raised InvalidTokenError else Returned tt
  end.

(** [jwt.decode(token, key, algorithms=[ALGORITHM])] at time [now]: the
    signature is checked first, then the registered claims the payload
    has, in the order of the package: [iat] and [nbf] not in the future,
    [exp] in the future, no [aud], [sub] and [jti] strings.  Every refusal
    but the expiry is an [InvalidTokenError] or one of its subclasses. *)
Definition decode (now : Z) (t : token) (key : string) : Result dict :=
  match t with
  | Garbage _ => Raised InvalidTokenError
  | Signed k payload =>
      if negb (String.eqb k key) then Raised InvalidTokenError
      else
        _ ← check_time "iat" (fun iat => Z.ltb now (iat * 1000000))
                       InvalidTokenError payload;
        _ ← check_time "nbf" (fun nbf => Z.ltb now (nbf * 1000000))
                       InvalidTokenError payload;
        _ ← check_time "exp" (fun exp => Z.leb (exp * 1000000) now)
                       ExpiredSignatureError payload;
        _ ← check_aud payload;
        _ ← check_str "sub" payload;
        _ ← check_str "jti" payload;
        Returned payload
  end.

End jwt.

(** ** Models *)

Record User : Type := {
  id : string;
  username : string;
  email : string;
  created_at : Z
}.

Record UserCreate : Type := {
  uc_username : string;
  uc_email : string;
  uc_password : string
}.

Record UserLogin : Type := {
  ul_username : string;
  ul_password : string
}.

Record AppLoginRequest : Type := {
  al_email : string;
  al_password : string
}.

Record AppLoginResponse : Type := {
  authenticated : bool;
  user_id : option string;
  message : option string
}.

Record Token : Type := {
  access_token : jwt.token;
  token_type : string;
  user : User
}.

Record TrackableUser : Type := {
  tu_id : string;
  tu_name : string;
  tu_status : string
}.

Record LocationData : Type := {
  ld_user_id : string;
  lat : Q;
  lng : Q;
  timestamp : Z;
  speed : option Q;
  heading : option Q
}.

Record RouteHistory : Type := {
  rh_user_id : string;
  coordinates : list dict;
  timestamps : list string
}.

Record RouteData : Type := {
  rd_id : string;
  rd_name : string;
  rd_description : string;
  rd_coordinates : list dict;
  rd_distance : Q;
  rd_estimated_time : Z
}.

(** What the outside world answers during one request. *)
Record Oracle : Type := {
  now : Z;                       (* datetime.now(timezone.utc), in microseconds *)
  uuid4 : string;                (* str(uuid.uuid4()) *)
  gensalt : string;              (* bcrypt.gensalt() *)
  net : HttpCall -> Upstream     (* the external API *)
}.

(** ** Helper functions *)

Definition hash_password {rt : Runtime} (password salt : string) : Result string :=
  match hashpw password salt with
  | Some hashed => Returned hashed
  | None => Raised BcryptValueError
  end.

Definition verify_password {rt : Runtime} (password hashed : string) : Result bool :=
  match checkpw password hashed with
  | Some ok => Returned ok
  | None => Raised BcryptValueError
  end.

(** [timedelta(minutes=m)] *)
Definition minutes (m : Z) : Z := m * 60 * 1000000.

Definition create_access_token (env : Env) (now : Z) (data : dict) : jwt.token :=
  let to_encode := data in
  let expire := now + minutes ACCESS_TOKEN_EXPIRE_MINUTES in
  let to_encode := dict_update "exp" (jwt.datetime_claim expire) to_encode in
  jwt.encode to_encode (SECRET_KEY env).

(** [db.users.find_one({"id": user_id})] *)
Definition find_one_id (user_id : JSON) (users : list UserDoc) : option UserDoc :=
  List.find (fun d => eq_str user_id (doc_id d)) users.

(** [db.users.find_one({"username": username})] *)
Definition find_one_username (u : string) (users : list UserDoc) : option UserDoc :=
  List.find (fun d => String.eqb (doc_username d) u) users.

(** [db.users.find_one({"$or": [{"username": u}, {"email": e}]})] *)
Definition find_one_username_or_email (u e : string) (users : list UserDoc)
  : option UserDoc :=
  List.find (fun d => String.eqb (doc_username d) u || String.eqb (doc_email d) e)
            users.

(** The [User] built from a stored document, password left out; the
    document holds the address [register] stored, which was validated
    before. *)
Definition user_of_doc (d : UserDoc) : User :=
  {| id := doc_id d; username := doc_username d; email := doc_email d;
     created_at := doc_created_at d |}.

(** The [User] of the mock identity; the configured address is validated
    as an [EmailStr] when the object is built. *)
Definition mock_user {rt : Runtime} (m : MockIdentity) (now : Z) : Result User :=
  match validate_email (MOCK_USER_EMAIL m) with
  | Some email =>
      Returned {| id := MOCK_USER_ID m; username := MOCK_USERNAME m;
                  email := email; created_at := now |}
  | None => Raised ValidationError
  end.

Definition get_current_user {rt : Runtime} (env : Env) (db : Backend) (now : Z)
    (credentials : jwt.token) : Result User :=
  try_except
    (let token := credentials in
     payload ← jwt.decode now token (SECRET_KEY env);
     let user_id := default JNull (dict_lookup "sub" payload) in
     match user_id with
     | JNull => Raised (HTTPException 401 "Invalid token")
     | _ =>
         match db with
         | MockAuth m =>
             if eq_str user_id (MOCK_USER_ID m) then mock_user m now
             else Raised (HTTPException 401 "User not found")
         | Mongo users =>
             match find_one_id user_id users with
             | None => Raised (HTTPException 401 "User not found")
             | Some user => Returned (user_of_doc user)
             end
         end
     end)
    (fun e =>
       match e with
       | ExpiredSignatureError => Some (Raised (HTTPException 401 "Token expired"))
       | InvalidTokenError => Some (Raised (HTTPException 401 "Invalid token"))
       | _ => None
       end).

(** ** Auth routes *)

(** [POST /api/auth/register]; the address of [user_data] has passed the
    [EmailStr] validation of the request model, and a [ValueError] of
    bcrypt leaves the handler before [insert_one]. *)
Definition register {rt : Runtime} (env : Env) (db : Backend) (o : Oracle)
    (user_data : UserCreate) : Result Token * Backend :=
  match db with
  | MockAuth _ =>
      (Raised (HTTPException 501 "Registration not available in mock mode"), db)
  | Mongo users =>
      match find_one_username_or_email (uc_username user_data)
                                       (uc_email user_data) users with
      | Some _ =>
          (Raised (HTTPException 400 "Username or email already exists"), db)
      | None =>
          let user := {| id := uuid4 o; username := uc_username user_data;
                         email := uc_email user_data; created_at := now o |} in
          match hash_password (uc_password user_data) (gensalt o) with
          | Raised e => (Raised e, db)
          | Returned hashed =>
              let doc := {| doc_id := id user; doc_username := username user;
                            doc_email := email user;
                            doc_created_at := created_at user;
                            doc_password := hashed |} in
              let access_token :=
                create_access_token env (now o) [("sub", JStr (id user))] in
              (Returned {| access_token := access_token; token_type := "bearer";
                           user := user |},
               Mongo (users ++ [doc]))
          end
      end
  end.

(** [POST /api/auth/login] *)
Definition login {rt : Runtime} (env : Env) (db : Backend) (o : Oracle)
    (credentials : UserLogin) : Result Token :=
  match db with
  | MockAuth m =>
      if String.eqb (ul_username credentials) (MOCK_USERNAME m)
         && String.eqb (ul_password credentials) (MOCK_PASSWORD m)
      then
        user_obj ← mock_user m (now o);
        let access_token :=
          create_access_token env (now o) [("sub", JStr (id user_obj))] in
        Returned {| access_token := access_token; token_type := "bearer";
                    user := user_obj |}
      else Raised (HTTPException 401 "Invalid credentials")
  | Mongo users =>
      match find_one_username (ul_username credentials) users with
      | None => Raised (HTTPException 401 "Invalid credentials")
      | Some user =>
          verified ← verify_password (ul_password credentials) (doc_password user);
          if negb verified
          then Raised (HTTPException 401 "Invalid credentials")
          else
            let user_obj := user_of_doc user in
            let access_token :=
              create_access_token env (now o) [("sub", JStr (id user_obj))] in
            Returned {| access_token := access_token; token_type := "bearer";
                        user := user_obj |}
      end
  end.

Definition app_login_call (base : string) (credentials : AppLoginRequest)
  : HttpCall :=
  {| http_method := "POST";
     url := String.append base "/auth/app-login";
     params := [];
     json_body := Some (JObj [("email", JStr (al_email credentials));
                              ("password", JStr (al_password credentials))]);
     headers := [("Content-Type", "application/json");
                 ("Accept", "application/json")] |}.

Definition unavailable : AppLoginResponse :=
  {| authenticated := false; user_id := None;
     message := Some "Authentication service unavailable" |}.

Definition rejected (msg : string) : AppLoginResponse :=
  {| authenticated := false; user_id := None; message := Some msg |}.

(** [POST /api/auth/app-login] *)
Definition app_login {rt : Runtime} (env : Env) (db : Backend) (o : Oracle)
    (credentials : AppLoginRequest) : Result AppLoginResponse :=
  if unset (LOC_API_TOKEN env) then Returned unavailable
  else if unset (MYTRIPS_API_BASEURL env) then Returned unavailable
  else
    match db with
    | MockAuth m =>
        if String.eqb (al_email credentials) (MOCK_USER_EMAIL m)
           && String.eqb (al_password credentials) (MOCK_PASSWORD m)
        then Returned {| authenticated := true; user_id := Some (MOCK_USER_ID m);
                         message := Some "Authentication successful" |}
        else Returned (rejected "Invalid credentials")
    | Mongo _ =>
        try_except
          (let base := default "" (MYTRIPS_API_BASEURL env) in
           '(status_code, body) ← send (net o) (app_login_call base credentials);
           if Z.eqb status_code 200 then
             data ← response_json body;
             authenticated ← py_get_default data "authenticated" (JBool false);
             user_id ← py_get data "user_id";
             message ← py_get_default data "message"
                                      (JStr "Authentication successful");
             if truthy authenticated && truthy user_id then
               message ← validate_opt_str message;
               Returned {| authenticated := true;
                           user_id := Some (py_str user_id);
                           message := message |}
             else
               message ← validate_opt_str
                           (py_or message (JStr "Invalid email or password"));
               Returned {| authenticated := false; user_id := None;
                           message := message |}
           else if Z.eqb status_code 401 || Z.eqb status_code 403 then
             Returned (rejected "Invalid credentials")
           else
             Returned (rejected "Authentication service error"))
          (fun e =>
             match e with
             | TimeoutException =>
                 Some (Returned (rejected "Authentication service timeout"))
             | _ => Some (Returned (rejected "Authentication failed"))
             end)
    end.

(** [GET /api/auth/me]: the handler returns what its dependency
    [get_current_user] produced. *)
Definition get_me (current_user : User) : Result User := Returned current_user.

(** ** Binary64 arithmetic

    Python's floats are IEEE 754 binary64 numbers.  A finite float is held
    as the rational it denotes, in lowest terms, and an operation rounds
    its exact result to the nearest float, ties to even.  The exponent
    range is left unbounded: overflow and the subnormal numbers, far from
    every number the handlers compute, are outside the model. *)

(** The nearest integer, ties to even *)
Definition rne (s : Q) : Z :=
  let f := Qfloor s in
  match (s - inject_Z f ?= 1 # 2)%Q with
  | Lt => f
  | Gt => f + 1
  | Eq => if Z.even f then f else f + 1
  end.

Definition pow2 (e : Z) : Q := Qpower 2 e.

(** The exponent [e] of the last place of [x]: [2^(e+52) <= |x| < 2^(e+53)] *)
Definition exponent (x : Q) : Z :=
  let e0 := Z.log2 (Z.abs (Qnum x)) - Z.log2 (Z.pos (Qden x)) - 52 in
  if Qle_bool (pow2 (e0 + 52)) (Qabs x) then e0 else e0 - 1.

(** The float nearest to [x]: a significand of 53 bits *)
Definition round64 (x : Q) : Q :=
  if Qeq_bool x 0 then 0%Q
  else Qred (inject_Z (rne (x / pow2 (exponent x))) * pow2 (exponent x)).

(** The unit roundoff, [2^-53] *)
Definition eps : Q := 1 # 9007199254740992.

(** A float literal, and [float(i)] of an integer *)
Definition double (x : Q) : Q := round64 x.

(** The float of the loop index [i] *)
Definition of_int (i : nat) : Q := double (inject_Z (Z.of_nat i)).

Definition fadd (x y : Q) : Q := round64 (x + y).
Definition fsub (x y : Q) : Q := round64 (x - y).
Definition fmul (x y : Q) : Q := round64 (x * y).

(** [math.fmod(x, m)]: the remainder of the quotient cut towards zero; it
    is a float whenever [x] and [m] are. *)
Definition fmod (x m : Q) : Q :=
  let q := (x / m)%Q in
  let n := if Qle_bool 0 q then Qfloor q else Qceiling q in
  Qred (x - m * inject_Z n).

Definition Qneg (x : Q) : bool := negb (Qle_bool 0 x).

(** [x % m] on floats, as the interpreter computes it: the [fmod], moved
    by [m] when its sign is not that of [m]. *)
Definition py_mod (x m : Q) : Q :=
  let r := fmod x m in
  if Qeq_bool r 0 then 0%Q
  else if negb (Bool.eqb (Qneg m) (Qneg r)) then fadd r m
  else r.

(** ** Mock data endpoints *)

Definition point (lat lng : Q) : dict := [("lat", JNum lat); ("lng", JNum lng)].

Definition mock_routes : list RouteData :=
  [ {| rd_id := "route-1"; rd_name := "Downtown Loop";
       rd_description := "City center patrol route";
       rd_coordinates :=
         [ point (double 40.7589) (double (-73.9851)); point (double 40.7614) (double (-73.9776));
           point (double 40.7580) (double (-73.9855)); point (double 40.7505) (double (-73.9934));
           point (double 40.7489) (double (-73.9680)); point (double 40.7589) (double (-73.9851)) ];
       rd_distance := double 5.2; rd_estimated_time := 45 |};
    {| rd_id := "route-2"; rd_name := "Westside Highway";
       rd_description := "Coastal route along the waterfront";
       rd_coordinates :=
         [ point (double 40.7489) (double (-74.0060)); point (double 40.7589) (double (-74.0080));
           point (double 40.7689) (double (-74.0020)); point (double 40.7789) (double (-73.9940));
           point (double 40.7889) (double (-73.9820)) ];
       rd_distance := double 8.5; rd_estimated_time := 60 |};
    {| rd_id := "route-3"; rd_name := "East Side Express";
       rd_description := "Fast route through eastern districts";
       rd_coordinates :=
         [ point (double 40.7580) (double (-73.9680)); point (double 40.7680) (double (-73.9600));
           point (double 40.7780) (double (-73.9520)); point (double 40.7880) (double (-73.9440));
           point (double 40.7980) (double (-73.9360)) ];
       rd_distance := double 12.3; rd_estimated_time := 90 |} ].

(** [GET /api/routes] *)
Definition get_routes : Result (list RouteData) := Returned mock_routes.

Definition mock_users : list TrackableUser :=
  [ {| tu_id := "user-1"; tu_name := "Driver A - John Smith"; tu_status := "active" |};
    {| tu_id := "user-2"; tu_name := "Driver B - Sarah Johnson"; tu_status := "active" |};
    {| tu_id := "user-3"; tu_name := "Driver C - Mike Davis"; tu_status := "on_break" |};
    {| tu_id := "user-4"; tu_name := "Driver D - Emily Chen"; tu_status := "active" |};
    {| tu_id := "user-5"; tu_name := "Driver E - Robert Wilson"; tu_status := "inactive" |} ].

Definition fallback_users : list TrackableUser :=
  [ {| tu_id := "user-1"; tu_name := "Driver A - John Smith"; tu_status := "active" |};
    {| tu_id := "user-2"; tu_name := "Driver B - Sarah Johnson"; tu_status := "active" |} ].

Definition api_headers (LOC_API_TOKEN : string) : list (string * string) :=
  [ ("Authorization", String.append "Bearer " LOC_API_TOKEN);
    ("X-API-Token", LOC_API_TOKEN);
    ("Accept", "application/json") ].

Definition users_call (LOC_API_BASEURL LOC_API_TOKEN : string) : HttpCall :=
  {| http_method := "GET";
     url := String.append LOC_API_BASEURL "/users.php";
     params := [("with_location_data", "true"); ("include_counts", "true");
                ("include_metadata", "true")];
     json_body := None;
     headers := api_headers LOC_API_TOKEN |}.

(** The loop of [get_trackable_users] over [data['data']['users']]. *)
Fixpoint users_loop {rt : Runtime} (items : list JSON) (users : list TrackableUser)
  : Result (list TrackableUser) :=
  match items with
  | [] => Returned users
  | user :: rest =>
      uid ← py_get user "id";
      display_name ← py_get user "display_name";
      name ← (if truthy display_name then Returned display_name
              else py_get user "username");
      name ← validate_str name;
      users_loop rest
        (users ++ [ {| tu_id := py_str uid; tu_name := name;
                       tu_status := "active" |} ])
  end.

(** [GET /api/users] *)
Definition get_trackable_users {rt : Runtime} (env : Env) (db : Backend) (o : Oracle)
  : Result (list TrackableUser) :=
  if MOCK_AUTH_ENABLED db || unset (LOC_API_BASEURL env)
     || unset (LOC_API_TOKEN env)
  then Returned mock_users
  else
    try_except
      (let base := default "" (LOC_API_BASEURL env) in
       let token := default "" (LOC_API_TOKEN env) in
       '(status_code, body) ← send (net o) (users_call base token);
       if Z.eqb status_code 200 then
         data ← response_json body;
         status ← py_get data "status";
         has_users ← (if eq_str status "success" then
                        d ← py_get_default data "data" (JObj []);
                        u ← py_get d "users";
                        Returned (truthy u)
                      else Returned false);
         if has_users : bool then
           d ← py_getitem data "data";
           u ← py_getitem d "users";
           items ← py_iter u;
           users_loop items []
         else Returned fallback_users
       else Returned fallback_users)
      (fun _ => Some (Returned fallback_users)).

(** ** Simulated location tracking *)

Record LocState : Type := {
  st_lat : Q;
  st_lng : Q;
  st_heading : Q
}.

(** The process state the handlers read and write: the user collection,
    the module-level [location_state] dict and the state of [random]. *)
Record World : Type := {
  db : Backend;
  location_state : gmap string LocState;
  rng : nat -> Z
}.

(** [random.random()]: the next 53-bit draw [k], as the float [k / 2^53]
    in [0, 1). *)
Definition random (g : nat -> Z) : Q * (nat -> Z) :=
  (Qred (Qmake (g 0%nat mod 9007199254740992) 9007199254740992), fun n => g (S n)).

(** [random.uniform(a, b)] is [a + (b - a) * random()], in floats. *)
Definition uniform (a b : Q) (g : nat -> Z) : Q * (nat -> Z) :=
  let '(r, g) := random g in (fadd a (fmul (fsub b a) r), g).

Definition locations_call (LOC_API_BASEURL LOC_API_TOKEN : string)
    (params : list (string * string)) : HttpCall :=
  {| http_method := "GET";
     url := String.append LOC_API_BASEURL "/locations.php";
     params := params;
     json_body := None;
     headers := api_headers LOC_API_TOKEN |}.

(** [datetime.strptime(server_time_str, '%Y-%m-%d %H:%M:%S')] with the bare
    [except] that substitutes the current time. *)
Definition parse_server_time {rt : Runtime} (server_time_str : JSON) (now : Z) : Z :=
  match server_time_str with
  | JStr s => default now (strptime s)
  | _ => now
  end.

(** The mock branch of [get_user_location]: seed the entry of a new id
    near the reference point, move an existing one. *)
Definition simulate (st : option LocState) (g : nat -> Z) : LocState * (nat -> Z) :=
  match st with
  | None =>
      let '(dlat, g) := uniform (double (-0.01)) (double 0.01) g in
      let '(dlng, g) := uniform (double (-0.01)) (double 0.01) g in
      let '(h, g) := uniform 0 360 g in
      ({| st_lat := fadd (double 40.7589) dlat;
          st_lng := fadd (double (-73.9851)) dlng;
          st_heading := h |}, g)
  | Some st =>
      let '(dlat, g) := uniform (double (-0.0005)) (double 0.0005) g in
      let '(dlng, g) := uniform (double (-0.0005)) (double 0.0005) g in
      let '(dh, g) := uniform (-10) 10 g in
      ({| st_lat := fadd (st_lat st) dlat; st_lng := fadd (st_lng st) dlng;
          st_heading := py_mod (fadd (st_heading st) dh) 360 |}, g)
  end%Q.

(** The fallback of [get_user_location], the same after the [try] body
    and in its [except] clause. *)
Definition location_fallback (w : World) (o : Oracle) (user_id : string)
  : Result LocationData * World :=
  let '(st, table) :=
    match location_state w !! user_id with
    | None =>
        let st := {| st_lat := double 40.7589; st_lng := double (-73.9851);
                     st_heading := 0 |} in
        (st, <[user_id := st]> (location_state w))
    | Some st => (st, location_state w)
    end in
  (Returned {| ld_user_id := user_id; lat := st_lat st; lng := st_lng st;
               timestamp := now o; speed := Some 0%Q;
               heading := Some (st_heading st) |},
   {| db := db w; location_state := table; rng := rng w |}).

(** [GET /api/location/{user_id}] *)
Definition get_user_location {rt : Runtime} (env : Env) (w : World) (o : Oracle)
    (user_id : string) : Result LocationData * World :=
  if MOCK_AUTH_ENABLED (db w) || unset (LOC_API_BASEURL env)
     || unset (LOC_API_TOKEN env)
  then
    let '(st, g) := simulate (location_state w !! user_id) (rng w) in
    let '(v, g) := uniform 20 60 g in
    (Returned {| ld_user_id := user_id; lat := st_lat st; lng := st_lng st;
                 timestamp := now o; speed := Some v;
                 heading := Some (st_heading st) |},
     {| db := db w; location_state := <[user_id := st]> (location_state w);
        rng := g |})
  else
    let fetched : Result (option LocationData) :=
      let base := default "" (LOC_API_BASEURL env) in
      let token := default "" (LOC_API_TOKEN env) in
      '(status_code, body) ←
        send (net o) (locations_call base token
                        [("user", user_id); ("limit", "1"); ("offset", "0")]);
      if Z.eqb status_code 200 then
        data ← response_json body;
        success ← py_get data "success";
        found ← (if truthy success then
                   d ← py_get data "data";
                   if truthy d then n ← py_len d; Returned (0 <? n)%Z
                   else Returned false
                 else Returned false);
        if found : bool then
          d ← py_getitem data "data";
          location ← py_first d;
          server_time_str ← py_get location "server_time";
          let timestamp := parse_server_time server_time_str (now o) in
          uid ← py_get location "user_id";
          latitude ← py_get location "latitude";
          longitude ← py_get location "longitude";
          speed ← py_get location "speed";
          bearing ← py_get location "bearing";
          lat ← validate_float latitude;
          lng ← validate_float longitude;
          speed ← validate_opt_float speed;
          heading ← validate_opt_float bearing;
          Returned (Some {| ld_user_id := py_str uid; lat := lat; lng := lng;
                            timestamp := timestamp; speed := speed;
                            heading := heading |})
        else Returned None
      else Returned None in
    match fetched with
    | Returned (Some location) => (Returned location, w)
    | Returned None => location_fallback w o user_id
    | Raised _ => location_fallback w o user_id
    end.

(** The first loop of [get_route_history]: twenty points along a line,
    each with a random jitter. *)
Fixpoint mock_history_loop {rt : Runtime} (now : Z) (range : list nat) (g : nat -> Z)
    (history_coords : list dict) (timestamps : list string)
  : list dict * list string * (nat -> Z) :=
  match range with
  | [] => (history_coords, timestamps, g)
  | i :: rest =>
      let base_lat := double 40.7589 in
      let base_lng := double (-73.9851) in
      let '(jlat, g) := uniform (double (-0.0002)) (double 0.0002) g in
      let '(jlng, g) := uniform (double (-0.0002)) (double 0.0002) g in
      let history_coords :=
        history_coords
          ++ [ point (fadd (fadd base_lat (fmul (of_int i) (double 0.001))) jlat)
                     (fadd (fadd base_lng (fmul (of_int i) (double 0.0008))) jlng) ] in
      let time := now - minutes (20 - Z.of_nat i) in
      let timestamps := timestamps ++ [isoformat time] in
      mock_history_loop now rest g history_coords timestamps
  end.

(** The loop of both fallbacks: the same line without jitter. *)
Fixpoint fallback_history_loop {rt : Runtime} (now : Z) (range : list nat)
    (history_coords : list dict) (timestamps : list string)
  : list dict * list string :=
  match range with
  | [] => (history_coords, timestamps)
  | i :: rest =>
      let base_lat := double 40.7589 in
      let base_lng := double (-73.9851) in
      let history_coords :=
        history_coords
          ++ [ point (fadd base_lat (fmul (of_int i) (double 0.001)))
                     (fadd base_lng (fmul (of_int i) (double 0.0008))) ] in
      let time := now - minutes (20 - Z.of_nat i) in
      let timestamps := timestamps ++ [isoformat time] in
      fallback_history_loop now rest history_coords timestamps
  end.

(** The loop over [data['data']] on the proxied path. *)
Fixpoint history_loop {rt : Runtime} (now : Z) (items : list JSON)
    (history_coords : list dict) (timestamps : list string)
  : Result (list dict * list string) :=
  match items with
  | [] => Returned (history_coords, timestamps)
  | location :: rest =>
      latitude ← py_get location "latitude";
      longitude ← py_get location "longitude";
      let history_coords :=
        history_coords ++ [ [("lat", latitude); ("lng", longitude)] ] in
      server_time_str ← py_get location "server_time";
      let timestamp := parse_server_time server_time_str now in
      let timestamps := timestamps ++ [isoformat timestamp] in
      history_loop now rest history_coords timestamps
  end.

Definition history_fallback {rt : Runtime} (o : Oracle) (user_id : string)
  : RouteHistory :=
  let '(history_coords, timestamps) :=
    fallback_history_loop (now o) (seq 0 20) [] [] in
  {| rh_user_id := user_id; coordinates := history_coords;
     timestamps := timestamps |}.

Definition history_params (user_id : string) (limit : Z)
    (date_from date_to : option string) : list (string * string) :=
  let params := [("user", user_id); ("limit", pretty limit); ("offset", "0")] in
  let params :=
    if unset date_from then params
    else params ++ [("date_from", default "" date_from)] in
  let params :=
    if unset date_to then params
    else params ++ [("date_to", default "" date_to)] in
  params.

(** [GET /api/history/{user_id}] *)
Definition get_route_history {rt : Runtime} (env : Env) (w : World) (o : Oracle)
    (user_id : string) (limit : Z) (date_from date_to : option string)
  : Result RouteHistory * World :=
  if MOCK_AUTH_ENABLED (db w) || unset (LOC_API_BASEURL env)
     || unset (LOC_API_TOKEN env)
  then
    let '(history_coords, timestamps, g) :=
      mock_history_loop (now o) (seq 0 20) (rng w) [] [] in
    (Returned {| rh_user_id := user_id; coordinates := history_coords;
                 timestamps := timestamps |},
     {| db := db w; location_state := location_state w; rng := g |})
  else
    (try_except
       (let base := default "" (LOC_API_BASEURL env) in
        let token := default "" (LOC_API_TOKEN env) in
        let params := history_params user_id limit date_from date_to in
        '(status_code, body) ← send (net o) (locations_call base token params);
        if Z.eqb status_code 200 then
          data ← response_json body;
          success ← py_get data "success";
          found ← (if truthy success then
                     d ← py_get data "data"; Returned (truthy d)
                   else Returned false);
          if found : bool then
            d ← py_getitem data "data";
            items ← py_iter d;
            '(history_coords, timestamps) ← history_loop (now o) items [] [];
            Returned {| rh_user_id := user_id; coordinates := history_coords;
                        timestamps := timestamps |}
          else Returned (history_fallback o user_id)
        else Returned (history_fallback o user_id))
       (fun _ => Some (Returned (history_fallback o user_id))),
     w).

(** ** The HTTP API surface

    The routes of [api_router].  Only [get_me] declares the dependency
    [Depends(get_current_user)]; no other handler takes the credentials of
    the request. *)
Inductive Endpoint : Type :=
| POST_auth_register (user_data : UserCreate)
| POST_auth_login (credentials : UserLogin)
| POST_auth_app_login (credentials : AppLoginRequest)
| GET_auth_me
| GET_routes
| GET_users
| GET_location (user_id : string)
| GET_history (user_id : string) (limit : Z) (date_from date_to : option string).

(** A request: the route with its validated parameters, and the bearer
    token of the [Authorization] header when there is one. *)
Record Request : Type := {
  endpoint : Endpoint;
  authorization : option jwt.token
}.

Inductive Payload : Type :=
| AToken (t : Token)
| AnAppLogin (r : AppLoginResponse)
| AUser (u : User)
| Routes (l : list RouteData)
| Users (l : list TrackableUser)
| ALocation (l : LocationData)
| AHistory (h : RouteHistory).

(** [security = HTTPBearer()]: without a bearer token the dependency
    itself refuses the request before any handler code runs. *)
Definition security (authorization : option jwt.token) : Result jwt.token :=
  match authorization with
  | Some credentials => Returned credentials
  | None => Raised (HTTPException 403 "Not authenticated")
  end.

Definition with_db (w : World) (db' : Backend) : World :=
  {| db := db'; location_state := location_state w; rng := rng w |}.

Definition serve {rt : Runtime} (env : Env) (w : World) (o : Oracle) (req : Request)
  : Result Payload * World :=
  match endpoint req with
  | POST_auth_register user_data =>
      let '(r, db') := register env (db w) o user_data in
      (AToken <$> r, with_db w db')
  | POST_auth_login credentials =>
      (AToken <$> login env (db w) o credentials, w)
  | POST_auth_app_login credentials =>
      (AnAppLogin <$> app_login env (db w) o credentials, w)
  | GET_auth_me =>
      (credentials ← security (authorization req);
       current_user ← get_current_user env (db w) (now o) credentials;
       AUser <$> get_me current_user, w)
  | GET_routes => (Routes <$> get_routes, w)
  | GET_users => (Users <$> get_trackable_users env (db w) o, w)
  | GET_location user_id =>
      let '(r, w') := get_user_location env w o user_id in
      (ALocation <$> r, w')
  | GET_history user_id limit date_from date_to =>
      let '(r, w') := get_route_history env w o user_id limit date_from date_to in
      (AHistory <$> r, w')
  end.

(** ** Evaluating the handlers *)

(** A runtime for evaluating the handlers on concrete inputs. *)
Definition sample_runtime : Runtime :=
  {| py_str := fun v => match v with
                        | JStr s => s
                        | JNum q => pretty (Qfloor q)
                        | _ => "None"
                        end;
     strptime := fun _ => None;
     isoformat := fun t => pretty t;
     to_float := fun v => match v with JNum q => Some q | _ => None end;
     validate_email := fun s => match String.index 0 "@" s with
                                | Some _ => Some s
                                | None => None
                                end;
     hashpw := fun password salt =>
                 if (72 <? String.length password)%nat then None
                 else Some (String.append salt password);
     checkpw := fun password hashed =>
                  if (72 <? String.length password)%nat then None
                  else Some (String.eqb (String.append "salt" password) hashed) |}.

Definition sample_mock : MockIdentity :=
  {| MOCK_USERNAME := "testuser"; MOCK_PASSWORD := "password123";
     MOCK_USER_EMAIL := "testuser@example.com"; MOCK_USER_ID := "mock-user-123" |}.

(** Mock mode with no external API configured. *)
Definition mock_env : Env :=
  {| LOC_API_BASEURL := None; LOC_API_TOKEN := None; MYTRIPS_API_BASEURL := None;
     SECRET_KEY := "dev-secret-key-not-for-production"; DEBUG_MODE := false |}.

(** Production mode with both external APIs configured. *)
Definition live_env : Env :=
  {| LOC_API_BASEURL := Some "https://loc.example/api";
     LOC_API_TOKEN := Some "loc-token";
     MYTRIPS_API_BASEURL := Some "https://mytrips.example/api";
     SECRET_KEY := "s3cret"; DEBUG_MODE := false |}.

Definition alice : UserDoc :=
  {| doc_id := "id-alice"; doc_username := "alice";
     doc_email := "alice@example.com"; doc_created_at := 1000;
     doc_password := "saltwonderland" |}.

Definition oracle (t : Z) (answer : Upstream) : Oracle :=
  {| now := t; uuid4 := "id-fresh"; gensalt := "salt"; net := fun _ => answer |}.

Definition world (b : Backend) (g : nat -> Z) : World :=
  {| db := b; location_state := ∅; rng := g |}.

(** ** Specification vocabulary *)

(** Every message literal [app_login] itself can put in a response. *)
Definition service_messages : list string :=
  [ "Authentication service unavailable"; "Authentication successful";
    "Invalid credentials"; "Invalid email or password";
    "Authentication service error"; "Authentication service timeout";
    "Authentication failed" ].

(** The failures of an upstream call: a timeout, any other exception of
    the client, or a response whose status is not 200. *)
Definition upstream_failed (u : Upstream) : bool :=
  match u with
  | Timeout => true
  | Failed _ => true
  | Response status_code _ => negb (Z.eqb status_code 200)
  end.

(** The exchange [app_login] has with the identity API. *)
Definition identity_answer (env : Env) (o : Oracle) (credentials : AppLoginRequest)
  : Upstream :=
  net o (app_login_call (default "" (MYTRIPS_API_BASEURL env)) credentials).

(** The identity API is called only outside mock mode and with both
    configuration values present. *)
Definition calls_identity_api (env : Env) (db : Backend) : bool :=
  negb (unset (LOC_API_TOKEN env)) && negb (unset (MYTRIPS_API_BASEURL env))
  && negb (MOCK_AUTH_ENABLED db).

(** The message chosen for a response whose status is not 200. *)
Definition status_message (status_code : Z) : string :=
  if Z.eqb status_code 401 || Z.eqb status_code 403 then "Invalid credentials"
  else "Authentication service error".

(** The message chosen for each kind of upstream failure. *)
Definition failure_message (u : Upstream) : string :=
  match u with
  | Timeout => "Authentication service timeout"
  | Failed _ => "Authentication failed"
  | Response status_code _ => status_message status_code
  end.

Definition mock_credentials : AppLoginRequest :=
  {| al_email := "testuser@example.com"; al_password := "password123" |}.

(** A 200 answer of the identity API that refuses the login and explains
    itself with an internal error text. *)
Definition upstream_text : string :=
  "SQLSTATE[HY000] [2002] Connection refused (10.0.3.17:3306)".

Definition refusing_answer : Upstream :=
  Response 200 (Json (JObj [ ("authenticated", JBool false);
                             ("message", JStr upstream_text) ])).

(** The subject of a token names a user the backend knows: the mock
    identity in mock mode, a stored document otherwise. *)
Definition subject_known (db : Backend) (uid : string) : Prop :=
  match db with
  | MockAuth m => uid = MOCK_USER_ID m
  | Mongo users => exists d, In d users /\ doc_id d = uid
  end.

Definition mock_login : UserLogin :=
  {| ul_username := "testuser"; ul_password := "password123" |}.

(** The location API is called only outside mock mode and with both
    configuration values present. *)
Definition calls_location_api (env : Env) (db : Backend) : bool :=
  negb (MOCK_AUTH_ENABLED db || unset (LOC_API_BASEURL env)
        || unset (LOC_API_TOKEN env)).

(** The exchange [get_trackable_users] has with the location API. *)
Definition users_answer (env : Env) (o : Oracle) : Upstream :=
  net o (users_call (default "" (LOC_API_BASEURL env))
                    (default "" (LOC_API_TOKEN env))).

(** The users a JSON body carries, under [data.users]. *)
Definition carried_users (data : JSON) : JSON :=
  match data with
  | JObj o =>
      match dict_lookup "data" o with
      | Some (JObj d) => default JNull (dict_lookup "users" d)
      | _ => JNull
      end
  | _ => JNull
  end.

Definition no_users (v : JSON) : bool :=
  match v with
  | JNull => true
  | JArr [] => true
  | _ => false
  end.

(** The failures of the user listing: a failed call, a status other than
    200, or a 200 response that carries no users. *)
Definition listing_failed (u : Upstream) : bool :=
  match u with
  | Timeout => true
  | Failed _ => true
  | Response status_code body =>
      negb (Z.eqb status_code 200)
      || match body with
         | NotJson _ => true
         | Json data => no_users (carried_users data)
         end
  end.

(** The routes that serve tracking data. *)
Definition data_route (e : Endpoint) : bool :=
  match e with
  | GET_users | GET_location _ | GET_history _ _ _ _ => true
  | _ => false
  end.

Definition request (e : Endpoint) (auth : option jwt.token) : Request :=
  {| endpoint := e; authorization := auth |}.

(** A successful listing of the location API with one user. *)
Definition listing_answer : Upstream :=
  Response 200
    (Json (JObj [ ("status", JStr "success");
                  ("data", JObj [ ("users", JArr [ JObj [ ("id", JNum 7);
                                                          ("display_name", JStr "Dana") ] ]);
                                  ("count", JNum 1) ]) ])).

(** Random draws under which the fifth draw, the latitude delta of a
    second call, is the midpoint of the generator's range. *)
Definition still_draws (n : nat) : Z :=
  if Nat.eqb n 4 then 4503599627370496 else 0.

(** ** Module initialisation

    The statements [server.py] runs when it is imported, before any request:
    the flags, the choice of the authentication backend, the signing secret
    and the CORS origins.  [environ] is [os.environ] once the [.env] file
    has been loaded. *)

(** [c.lower()] on one ASCII character *)
Definition lower_ascii (c : Ascii.ascii) : Ascii.ascii :=
  let n := Ascii.nat_of_ascii c in
  if Nat.leb 65 n && Nat.leb n 90 then Ascii.ascii_of_nat (n + 32) else c.

(** [s.lower()]; only its comparison with an ASCII literal is used. *)
Fixpoint lower (s : string) : string :=
  match s with
  | EmptyString => EmptyString
  | String c s' => String (lower_ascii c) (lower s')
  end.

(** [os.environ.get(name, fallback)] *)
Definition getenv (environ : gmap string string) (name fallback : string)
  : string :=
  default fallback (environ !! name).

(** [os.environ.get(name, 'false').lower() == 'true'] *)
Definition flag (environ : gmap string string) (name : string) : bool :=
  String.eqb (lower (getenv environ name "false")) "true".

Definition PLACEHOLDER_SECRET : string :=
  "CHANGE_THIS_TO_A_SECURE_RANDOM_SECRET_IN_PRODUCTION".

Definition DEV_SECRET : string := "dev-secret-key-not-for-production".

(** [client[DB_NAME]] on [AsyncIOMotorClient(mongo_url)] *)
Record Database : Type := {
  mongo_url : string;
  DB_NAME : string
}.

(** What the import leaves behind: [db] is a database handle, and no mock
    names, or [None] with the mock identity defined. *)
Inductive Store : Type :=
| NoStore (m : MockIdentity)
| Stored (handle : Database).

(** The import either completes, or stops with the [ValueError] it raises
    or with the error of [AsyncIOMotorClient] for a URL it cannot parse. *)
Inductive Startup : Type :=
| Started (env : Env) (store : Store)
| ValueError (msg : string)
| InvalidURI.

(** Lines 20-56 of [server.py]; [valid_uri] is the check
    [AsyncIOMotorClient] makes of its argument. *)
Definition startup (valid_uri : string -> bool) (environ : gmap string string)
  : Startup :=
  let debug := flag environ "DEBUG_MODE" in
  let mock_enabled := flag environ "MOCK_AUTH_ENABLED" in
  let mock :=
    {| MOCK_USERNAME := getenv environ "MOCK_USERNAME" "testuser";
       MOCK_PASSWORD := getenv environ "MOCK_PASSWORD" "password123";
       MOCK_USER_EMAIL := getenv environ "MOCK_USER_EMAIL" "testuser@example.com";
       MOCK_USER_ID := getenv environ "MOCK_USER_ID" "mock-user-123" |} in
  let settings (secret : string) : Env :=
    {| LOC_API_BASEURL := environ !! "LOC_API_BASEURL";
       LOC_API_TOKEN := environ !! "LOC_API_TOKEN";
       MYTRIPS_API_BASEURL := environ !! "MYTRIPS_API_BASEURL";
       SECRET_KEY := secret;
       DEBUG_MODE := debug |} in
  if negb mock_enabled && unset (environ !! "MONGO_URL") then
    ValueError
      "MONGO_URL environment variable is required when MOCK_AUTH_ENABLED is false"
  else if negb mock_enabled && negb (valid_uri (getenv environ "MONGO_URL" ""))
  then InvalidURI
  else
    let store :=
      if mock_enabled then NoStore mock
      else Stored {| mongo_url := getenv environ "MONGO_URL" "";
                     DB_NAME := getenv environ "DB_NAME" "route_tracker_db" |} in
    let secret := environ !! "JWT_SECRET" in
    if unset secret || String.eqb (default "" secret) PLACEHOLDER_SECRET then
      if mock_enabled then Started (settings DEV_SECRET) store
      else
        ValueError
          "JWT_SECRET environment variable must be set to a secure random value in production"
    else Started (settings (default "" secret)) store.

(** The backend the handlers see: the mock identity, or the documents the
    database holds. *)
Definition backend_of (store : Store) (users : list UserDoc) : Backend :=
  match store with
  | NoStore m => MockAuth m
  | Stored _ => Mongo users
  end.



(** ** Vocabulary of the further properties *)

(** No two stored users share a username, and no two an e-mail. *)
Definition unique_users (users : list UserDoc) : Prop :=
  NoDup (doc_username <$> users) /\ NoDup (doc_email <$> users).


(** A runtime whose [checkpw] accepts what its [hashpw] made with the
    given salt, as bcrypt does. *)
Definition bcrypt_accepts {rt : Runtime} (password salt : string) : Prop :=
  exists hashed,
    hashpw password salt = Some hashed /\ checkpw password hashed = Some true.

Definition bob_data : UserCreate :=
  {| uc_username := "bob"; uc_email := "bob@example.com";
     uc_password := "builder" |}.

(** What holds of every answer of [app_login]: the user id is there
    exactly when the answer is authenticated, and a refusal carries a
    message that is not empty. *)
Definition well_formed_answer (r : AppLoginResponse) : Prop :=
  (authenticated r = true <-> user_id r <> None)
  /\ (authenticated r = false -> exists m, message r = Some m /\ m <> "").

(** What one entry of the upstream user listing becomes, when it can be
    listed: an object whose [display_name], or else [username], is a
    string. *)
Definition listed {rt : Runtime} (user : JSON) : option TrackableUser :=
  match user with
  | JObj o =>
      let display_name := default JNull (dict_lookup "display_name" o) in
      let name := if truthy display_name then display_name
                  else default JNull (dict_lookup "username" o) in
      match name with
      | JStr s => Some {| tu_id := py_str (default JNull (dict_lookup "id" o));
                          tu_name := s; tu_status := "active" |}
      | _ => None
      end
  | _ => None
  end.

(** The exchange [get_user_location] has with the location API. *)
Definition location_answer (env : Env) (o : Oracle) (user_id : string) : Upstream :=
  net o (locations_call (default "" (LOC_API_BASEURL env))
                        (default "" (LOC_API_TOKEN env))
                        [("user", user_id); ("limit", "1"); ("offset", "0")]).

(** The exchange [get_route_history] has with the location API. *)
Definition history_answer (env : Env) (o : Oracle) (user_id : string)
    (limit : Z) (date_from date_to : option string) : Upstream :=
  net o (locations_call (default "" (LOC_API_BASEURL env))
                        (default "" (LOC_API_TOKEN env))
                        (history_params user_id limit date_from date_to)).

(** The [i]-th point of the synthetic line, and its time. *)
Definition line_lat (i : nat) : Q :=
  fadd (double 40.7589) (fmul (of_int i) (double 0.001)).

Definition line_lng (i : nat) : Q :=
  fadd (double (-73.9851)) (fmul (of_int i) (double 0.0008)).

Definition line_point (i : nat) : dict := point (line_lat i) (line_lng i).

Definition line_time {rt : Runtime} (now : Z) (i : nat) : string :=
  isoformat (now - minutes (20 - Z.of_nat i)).

(** A point that is the [i]-th point of the line moved by at most the
    float 0.0002 in latitude and in longitude: it lies between the float
    sums with -0.0002 and with 0.0002, and within 0.0002 of the point up
    to the rounding of the addition. *)
Definition near_line (i : nat) (c : dict) : Prop :=
  exists la lo,
    c = point la lo
    /\ (fadd (line_lat i) (double (-0.0002)) <= la
        <= fadd (line_lat i) (double 0.0002))%Q
    /\ (fadd (line_lng i) (double (-0.0002)) <= lo
        <= fadd (line_lng i) (double 0.0002))%Q
    /\ (Qabs (la - line_lat i) <= 0.0002 + 100 * eps)%Q
    /\ (Qabs (lo - line_lng i) <= 0.0002 + 100 * eps)%Q.

(** What one entry of the upstream history becomes, when it is an object:
    its coordinate and its timestamp. *)
Definition sample_of {rt : Runtime} (now : Z) (location : JSON)
  : option (dict * string) :=
  match location with
  | JObj o =>
      Some ([ ("lat", default JNull (dict_lookup "latitude" o));
              ("lng", default JNull (dict_lookup "longitude" o)) ],
            isoformat (parse_server_time
                         (default JNull (dict_lookup "server_time" o)) now))
  | _ => None
  end.

Definition active (u : TrackableUser) : Prop := tu_status u = "active".

(** A listing of the location API with a second entry that has no name. *)
Definition broken_listing : Upstream :=
  Response 200
    (Json (JObj [ ("status", JStr "success");
                  ("data", JObj [ ("users", JArr [ JObj [ ("id", JNum 7);
                                                          ("display_name", JStr "Dana") ];
                                                   JObj [ ("id", JNum 8) ] ]) ]) ])).

(** An environment that enables mock mode and sets nothing else. *)
Definition mock_environ : gmap string string :=
  {[ "MOCK_AUTH_ENABLED" := "True" ]}.

(** A production environment. *)
Definition live_environ : gmap string string :=
  {[ "MONGO_URL" := "mongodb://db.example:27017";
     "JWT_SECRET" := "s3cret";
     "CORS_ORIGINS" := "https://app.example, https://admin.example" ]}.

(** A stand-in for the URL check of the Mongo client. *)
Definition sample_valid_uri (url : string) : bool :=
  String.prefix "mongodb" url.

(** A 200 answer of the identity API that accepts the login. *)
Definition accepting_answer : Upstream :=
  Response 200 (Json (JObj [ ("authenticated", JBool true);
                             ("user_id", JNum 42);
                             ("message", JStr "Welcome back") ])).

(** A 200 answer of the identity API that refuses without a message. *)
Definition silent_refusal : Upstream :=
  Response 200 (Json (JObj [ ("authenticated", JBool false) ])).

(** A page of the upstream history with two samples. *)
Definition history_page : Upstream :=
  Response 200
    (Json (JObj [ ("success", JBool true);
                  ("data", JArr [ JObj [ ("latitude", JNum 40.7);
                                         ("longitude", JNum (-73.9));
                                         ("server_time", JStr "2024-05-01 10:00:00") ];
                                  JObj [ ("latitude", JNum 40.8);
                                         ("longitude", JNum (-73.8)) ] ]) ])).

Definition alice_login : UserLogin :=
  {| ul_username := "alice"; ul_password := "wonderland" |}.

Definition steady_draws (n : nat) : Z := Z.of_nat n * 1000000007.

(** An answer of the location API with one reading that names no user. *)
Definition reading_answer : Upstream :=
  Response 200
    (Json (JObj [ ("success", JBool true);
                  ("data", JArr [ JObj [ ("latitude", JNum 40.71);
                                         ("longitude", JNum (-74.01));
                                         ("speed", JNum 12.5) ];
                                  JObj [ ("latitude", JNum 0);
                                         ("longitude", JNum 0) ] ]) ])).

(** ** Vocabulary of times and tokens *)

(** A number of seconds, and a day, in microseconds *)
Definition seconds (s : Z) : Z := s * 1000000.

Definition day : Z := seconds (24 * 3600).

(** A point in time cut to its whole second *)
Definition whole_seconds (t : Z) : Z := seconds (t / 1000000).

(** A payload as the handlers hand it to [create_access_token]: its
    subject is a string, and it has none of the other registered claims
    that [jwt.decode] checks. *)
Definition subject_payload (data : dict) (uid : string) : Prop :=
  dict_lookup "sub" data = Some (JStr uid)
  /\ dict_lookup "iat" data = None
  /\ dict_lookup "nbf" data = None
  /\ dict_lookup "aud" data = None
  /\ dict_lookup "jti" data = None.

(** The configured e-mail address of the mock identity is one that
    [EmailStr] accepts. *)
Definition mock_email_valid {rt : Runtime} (m : MockIdentity) : Prop :=
  exists email, validate_email (MOCK_USER_EMAIL m) = Some email.

(** The same of a backend; the database mode configures no address. *)
Definition identity_valid {rt : Runtime} (db : Backend) : Prop :=
  match db with
  | MockAuth m => mock_email_valid m
  | Mongo _ => True
  end.

(** A mock identity whose configured address is no e-mail address. *)
Definition broken_mock : MockIdentity :=
  {| MOCK_USERNAME := "testuser"; MOCK_PASSWORD := "password123";
     MOCK_USER_EMAIL := "not-an-email"; MOCK_USER_ID := "mock-user-123" |}.

(** ** Properties *)

(** Closes a goal asking for a refusal with one of the service's messages,
    once the handler has been evaluated down to its answer. *)
Ltac refused :=
  eexists; split; [reflexivity | split; [discriminate | simpl; tauto]].

(** Closes a goal about the message of an answer that the handler wrote
    itself. *)
Ltac own_message :=
  simpl; eexists;
  (split; [reflexivity |]);
  (split;
   [ let Hm := fresh "Hm" in
     intros ? Hm; simpl in Hm; try discriminate; injection Hm as <-;
     first [ left; simpl; tauto
           | right; split;
             [reflexivity | eexists; split; [reflexivity | eassumption]] ]
   | let Hc := fresh "Hc" in
     let E1 := fresh "E" in
     intros ? ? Hc E1 ? ?; simpl in Hc |- *; try discriminate; try congruence;
     injection E1 as <-; congruence ]).

(** Decides a comparison of two closed rationals by computation. *)
Ltac qcompute :=
  first [ apply Qle_bool_imp_le; vm_compute; reflexivity
        | apply Qeq_bool_eq; vm_compute; reflexivity
        | apply Qlt_alt; vm_compute; reflexivity ].

(** ** Rounding

    The error and the monotonicity of [round64]. *)

Section Rounding.

Lemma rne_error (s : Q) : (Qabs (inject_Z (rne s) - s) <= 1 # 2)%Q.
Proof.
  unfold rne. pose proof (Qfloor_le s) as Hlo. pose proof (Qlt_floor s) as Hhi.
  rewrite inject_Z_plus in Hhi. change (inject_Z 1) with 1%Q in Hhi.
  apply Qabs_Qle_condition.
  destruct (Qcompare_spec (s - inject_Z (Qfloor s)) (1 # 2)) as [E | E | E].
  - destruct (Z.even (Qfloor s)); [| rewrite inject_Z_plus; change (inject_Z 1) with 1%Q];
      split; lra.
  - split; lra.
  - rewrite inject_Z_plus. change (inject_Z 1) with 1%Q. split; lra.
Qed.

Lemma pow2_pos (e : Z) : (0 < pow2 e)%Q.
Proof. apply Qpower_0_lt. reflexivity. Qed.

Lemma pow2_add (a b : Z) : (pow2 (a + b) == pow2 a * pow2 b)%Q.
Proof. apply Qpower_plus. discriminate. Qed.

Lemma pow2_nat (a : Z) : 0 <= a -> (pow2 a == inject_Z (2 ^ a))%Q.
Proof. intros Ha. unfold pow2. now rewrite Zpower_Qpower. Qed.

Lemma pow2_53 : (pow2 (-53) == 1 # 9007199254740992)%Q.
Proof. reflexivity. Qed.

(** |x| lies between 2^(a-b-1) and 2^(a-b+1) for a, b the bit lengths. *)
Lemma log2_bounds (x : Q) :
  ~ (x == 0)%Q ->
  let k := Z.log2 (Z.abs (Qnum x)) - Z.log2 (Z.pos (Qden x)) in
  (pow2 (k - 1) <= Qabs x)%Q /\ (Qabs x < pow2 (k + 1))%Q.
Proof.
  intros Hx k. subst k.
  set (n := Z.abs (Qnum x)). set (d := Z.pos (Qden x)).
  assert (Hn : 0 < n).
  { unfold n. destruct x as [xn xd]. unfold Qeq in Hx. simpl in *. lia. }
  assert (Hd : 0 < d) by (unfold d; lia).
  pose proof (Z.log2_spec n Hn) as [Hn1 Hn2].
  pose proof (Z.log2_spec d Hd) as [Hd1 Hd2].
  pose proof (Z.log2_nonneg n) as Ha. pose proof (Z.log2_nonneg d) as Hb.
  set (a := Z.log2 n) in *. set (b := Z.log2 d) in *.
  assert (Habs : (Qabs x == inject_Z n / inject_Z d)%Q).
  { destruct x as [xn xd]. unfold n, d. simpl. unfold Qabs.
    now rewrite Qmake_Qdiv. }
  assert (Hdq : (0 < inject_Z d)%Q) by (unfold Qlt; simpl; lia).
  assert (Hpa : (0 < pow2 a)%Q) by apply pow2_pos.
  assert (Hpb : (0 < pow2 b)%Q) by apply pow2_pos.
  assert (E1 : (pow2 (a - b - 1) == pow2 a / (pow2 b * 2))%Q).
  { replace (a - b - 1) with (a + (- b + -1)) by lia.
    rewrite pow2_add, pow2_add. unfold pow2 at 2. rewrite Qpower_opp.
    fold (pow2 b). change (pow2 (-1)) with (1 # 2)%Q. field. lra. }
  assert (E2 : (pow2 (a - b + 1) == pow2 a * 2 / pow2 b)%Q).
  { replace (a - b + 1) with (a + (- b + 1)) by lia.
    rewrite pow2_add, pow2_add. unfold pow2 at 2. rewrite Qpower_opp.
    fold (pow2 b). change (pow2 1) with 2%Q. field. lra. }
  rewrite Habs, E1, E2. rewrite !pow2_nat in * by lia.
  assert (Hn1q : (inject_Z (2 ^ a) <= inject_Z n)%Q) by (rewrite <- Zle_Qle; lia).
  assert (Hn2q : (inject_Z n < inject_Z (2 ^ a) * 2)%Q).
  { change 2%Q with (inject_Z 2). rewrite <- inject_Z_mult, <- Zlt_Qlt.
    rewrite Z.pow_succ_r in Hn2 by lia. lia. }
  assert (Hd1q : (inject_Z (2 ^ b) <= inject_Z d)%Q) by (rewrite <- Zle_Qle; lia).
  assert (Hd2q : (inject_Z d < inject_Z (2 ^ b) * 2)%Q).
  { change 2%Q with (inject_Z 2). rewrite <- inject_Z_mult, <- Zlt_Qlt.
    rewrite Z.pow_succ_r in Hd2 by lia. lia. }
  set (A := inject_Z (2 ^ a)) in *. set (B := inject_Z (2 ^ b)) in *.
  set (N := inject_Z n) in *. set (D := inject_Z d) in *.
  split.
  - apply Qle_shift_div_l; [assumption |].
    assert (E : (A / (B * 2) * D == A * D / (B * 2))%Q) by (field; lra).
    rewrite E. apply Qle_shift_div_r; [lra |]. nra.
  - apply Qlt_shift_div_r; [assumption |].
    assert (E : (A * 2 / B * D == A * 2 * D / B)%Q) by (field; lra).
    rewrite E. apply Qlt_shift_div_l; [assumption |]. nra.
Qed.

Lemma exponent_spec (x : Q) :
  ~ (x == 0)%Q ->
  (pow2 (exponent x + 52) <= Qabs x)%Q /\ (Qabs x < pow2 (exponent x + 53))%Q.
Proof.
  intros Hx. pose proof (log2_bounds x Hx) as [Hlo Hhi]. cbv zeta in *.
  unfold exponent.
  set (k := Z.log2 (Z.abs (Qnum x)) - Z.log2 (Z.pos (Qden x))) in *.
  destruct (Qle_bool (pow2 (k - 52 + 52)) (Qabs x)) eqn:E.
  - apply Qle_bool_iff in E. split; [exact E |].
    now replace (k - 52 + 53) with (k + 1) by lia.
  - replace (k - 52 - 1 + 52) with (k - 1) by lia. split; [exact Hlo |].
    replace (k - 52 - 1 + 53) with (k - 52 + 52) by lia.
    apply Qnot_le_lt. intros H. apply Qle_bool_iff in H. congruence.
Qed.

Lemma round64_error (x : Q) : (Qabs (round64 x - x) <= eps * Qabs x)%Q.
Proof.
  unfold round64. destruct (Qeq_bool x 0) eqn:E0.
  - apply Qeq_bool_iff in E0. rewrite E0. apply Qle_bool_imp_le. reflexivity.
  - assert (Hx : ~ (x == 0)%Q).
    { intros H. apply Qeq_bool_iff in H. congruence. }
    rewrite Qred_correct.
    pose proof (exponent_spec x Hx) as [Hlo _].
    set (e := exponent x) in *.
    pose proof (pow2_pos e) as Hp.
    pose proof (rne_error (x / pow2 e)) as Hr.
    set (m := inject_Z (rne (x / pow2 e))) in *.
    assert (E : (m * pow2 e - x == (m - x / pow2 e) * pow2 e)%Q) by (field; lra).
    rewrite E, Qabs_Qmult, (Qabs_pos (pow2 e)) by lra.
    rewrite pow2_add in Hlo. change (pow2 52) with (4503599627370496 # 1)%Q in Hlo.
    unfold eps.
    assert (H1 : (Qabs (m - x / pow2 e) * pow2 e <= (1 # 2) * pow2 e)%Q).
    { apply Qmult_le_compat_r; [exact Hr | lra]. }
    lra.
Qed.

Lemma round64_bounds (x : Q) :
  (x - eps * Qabs x <= round64 x <= x + eps * Qabs x)%Q.
Proof.
  pose proof (round64_error x) as H. apply Qabs_Qle_condition in H. lra.
Qed.

Lemma rne_lower (s : Q) : Qfloor s <= rne s.
Proof.
  unfold rne. destruct (Qcompare _ _); [destruct (Z.even _) | |]; lia.
Qed.

Lemma rne_upper (s : Q) : rne s <= Qfloor s + 1.
Proof.
  unfold rne. destruct (Qcompare _ _); [destruct (Z.even _) | |]; lia.
Qed.

Lemma rne_mono (s t : Q) : (s <= t)%Q -> rne s <= rne t.
Proof.
  intros H. pose proof (Qfloor_resp_le _ _ H) as Hf.
  destruct (Z.eq_dec (Qfloor s) (Qfloor t)) as [E | E].
  - unfold rne. rewrite <- E.
    destruct (Qcompare_spec (s - inject_Z (Qfloor s)) (1 # 2)) as [Hs | Hs | Hs];
      destruct (Qcompare_spec (t - inject_Z (Qfloor s)) (1 # 2)) as [Ht | Ht | Ht];
      try destruct (Z.even (Qfloor s)); try lia; exfalso; lra.
  - pose proof (rne_upper s). pose proof (rne_lower t). lia.
Qed.

Lemma rne_comp (s t : Q) : (s == t)%Q -> rne s = rne t.
Proof.
  intros E. unfold rne. rewrite (Qfloor_comp _ _ E).
  assert (C : (s - inject_Z (Qfloor t) ?= 1 # 2)%Q = (t - inject_Z (Qfloor t) ?= 1 # 2)%Q).
  { apply Qcompare_comp; [now rewrite E | reflexivity]. }
  now rewrite C.
Qed.

Lemma rne_Z (z : Z) : rne (inject_Z z) = z.
Proof.
  unfold rne. rewrite Qfloor_Z.
  destruct (Qcompare_spec (inject_Z z - inject_Z z) (1 # 2)) as [H | H | H];
    try reflexivity; exfalso; lra.
Qed.

Lemma Qfloor_unique (s : Q) (z : Z) :
  (inject_Z z <= s)%Q -> (s < inject_Z (z + 1))%Q -> Qfloor s = z.
Proof.
  intros Hlo Hhi. pose proof (Qfloor_le s) as H1. pose proof (Qlt_floor s) as H2.
  assert (A : (inject_Z z < inject_Z (Qfloor s + 1))%Q) by lra.
  assert (B : (inject_Z (Qfloor s) < inject_Z (z + 1))%Q) by lra.
  rewrite <- Zlt_Qlt in A, B. lia.
Qed.

Lemma rne_opp (s : Q) : rne (- s) = - rne s.
Proof.
  pose proof (Qfloor_le s) as Hlo. pose proof (Qlt_floor s) as Hhi.
  rewrite inject_Z_plus in Hhi. change (inject_Z 1) with 1%Q in Hhi.
  set (f := Qfloor s) in *.
  destruct (Qeq_dec s (inject_Z f)) as [E | E].
  - assert (F : Qfloor (- s) = - f).
    { apply Qfloor_unique; rewrite ?inject_Z_plus, inject_Z_opp;
        change (inject_Z 1) with 1%Q; lra. }
    unfold rne. rewrite F. fold f. rewrite inject_Z_opp.
    destruct (Qcompare_spec (- s - - inject_Z f) (1 # 2)) as [H | H | H];
      destruct (Qcompare_spec (s - inject_Z f) (1 # 2)) as [H' | H' | H'];
      try reflexivity; exfalso; lra.
  - assert (F : Qfloor (- s) = - f - 1).
    { apply Qfloor_unique.
      - unfold Z.sub. rewrite inject_Z_plus, !inject_Z_opp.
        change (inject_Z 1) with 1%Q. lra.
      - replace (- f - 1 + 1) with (- f) by lia. rewrite inject_Z_opp.
        assert (~ (s == inject_Z f)%Q -> inject_Z f <= s -> inject_Z f < s)%Q.
        { intros N L. apply Qle_lt_or_eq in L. destruct L as [L | L]; [exact L |].
          exfalso. apply N. now symmetry. }
        lra. }
    unfold rne. rewrite F. fold f.
    unfold Z.sub at 1. rewrite inject_Z_plus, !inject_Z_opp.
    change (inject_Z 1) with 1%Q.
    replace (Z.even (- f - 1)) with (negb (Z.even f)).
    2:{ replace (- f - 1) with (Z.pred (- f)) by lia.
        now rewrite Z.even_pred, <- Z.negb_even, Z.even_opp. }
    destruct (Qcompare_spec (- s - (- inject_Z f + - (1))) (1 # 2)) as [H | H | H];
      destruct (Qcompare_spec (s - inject_Z f) (1 # 2)) as [H' | H' | H'];
      try (exfalso; lra); try destruct (Z.even f); simpl; lia.
Qed.

Lemma exponent_opp (x : Q) : exponent (- x) = exponent x.
Proof.
  unfold exponent. destruct x as [n d]. simpl. now rewrite Z.abs_opp.
Qed.

Lemma round64_opp (x : Q) : (round64 (- x) == - round64 x)%Q.
Proof.
  unfold round64.
  destruct (Qeq_bool x 0) eqn:E0; destruct (Qeq_bool (- x) 0) eqn:E1.
  - reflexivity.
  - exfalso. apply Qeq_bool_iff in E0.
    assert (H : (- x == 0)%Q) by lra. apply Qeq_bool_iff in H. congruence.
  - exfalso. apply Qeq_bool_iff in E1.
    assert (H : (x == 0)%Q) by lra. apply Qeq_bool_iff in H. congruence.
  - rewrite !Qred_correct, exponent_opp.
    pose proof (pow2_pos (exponent x)) as Hp.
    assert (E : (- x / pow2 (exponent x) == - (x / pow2 (exponent x)))%Q)
      by (field; lra).
    assert (R : rne (- x / pow2 (exponent x)) = rne (- (x / pow2 (exponent x))))
      by (apply rne_comp, E).
    rewrite R, rne_opp, inject_Z_opp. ring.
Qed.

Lemma pow2_le (a b : Z) : a <= b -> (pow2 a <= pow2 b)%Q.
Proof. intros H. apply Qpower_le_compat_l; [exact H | lra]. Qed.

Lemma round64_sign_pos (x : Q) : (0 <= x -> 0 <= round64 x)%Q.
Proof.
  intros H. pose proof (round64_bounds x) as B.
  rewrite (Qabs_pos x H) in B. unfold eps in B. lra.
Qed.

Lemma round64_sign_neg (x : Q) : (x <= 0 -> round64 x <= 0)%Q.
Proof.
  intros H. pose proof (round64_bounds x) as B.
  rewrite (Qabs_neg x H) in B. unfold eps in B. lra.
Qed.

Lemma round64_mono_pos (x y : Q) : (0 < x -> x <= y -> round64 x <= round64 y)%Q.
Proof.
  intros Hx Hxy.
  assert (Nx : ~ (x == 0)%Q) by lra. assert (Ny : ~ (y == 0)%Q) by lra.
  pose proof (exponent_spec x Nx) as [Xlo Xhi].
  pose proof (exponent_spec y Ny) as [Ylo Yhi].
  rewrite (Qabs_pos x) in Xlo, Xhi by lra. rewrite (Qabs_pos y) in Ylo, Yhi by lra.
  unfold round64.
  destruct (Qeq_bool x 0) eqn:E0.
  { apply Qeq_bool_iff in E0. exfalso. lra. }
  destruct (Qeq_bool y 0) eqn:E1.
  { apply Qeq_bool_iff in E1. exfalso. lra. }
  rewrite !Qred_correct.
  set (ex := exponent x) in *. set (ey := exponent y) in *.
  pose proof (pow2_pos ex) as Px. pose proof (pow2_pos ey) as Py.
  assert (Hle : ex <= ey).
  { assert (L : (pow2 (ex + 52) < pow2 (ey + 53))%Q) by lra.
    apply Qpower_lt_compat_l_inv in L; [lia | lra]. }
  destruct (Z.eq_dec ex ey) as [E | E].
  - rewrite <- E. apply Qmult_le_compat_r; [| lra].
    rewrite <- Zle_Qle. apply rne_mono.
    apply Qle_shift_div_l; [exact Px |].
    assert (F : (x / pow2 ex * pow2 ex == x)%Q) by (field; lra).
    now rewrite F.
  - assert (Sx : (x / pow2 ex <= inject_Z (2 ^ 53))%Q).
    { apply Qle_shift_div_r; [exact Px |].
      rewrite <- pow2_nat by lia. rewrite <- pow2_add.
      replace (53 + ex) with (ex + 53) by lia. lra. }
    assert (Sy : (inject_Z (2 ^ 52) <= y / pow2 ey)%Q).
    { apply Qle_shift_div_l; [exact Py |].
      rewrite <- pow2_nat by lia. rewrite <- pow2_add.
      replace (52 + ey) with (ey + 52) by lia. lra. }
    apply rne_mono in Sx, Sy. rewrite rne_Z in Sx, Sy.
    rewrite Zle_Qle in Sx, Sy. rewrite <- pow2_nat in Sx, Sy by lia.
    assert (M : (pow2 53 * pow2 ex <= pow2 52 * pow2 ey)%Q).
    { rewrite <- !pow2_add. apply pow2_le. lia. }
    set (mx := inject_Z (rne (x / pow2 ex))) in *.
    set (my := inject_Z (rne (y / pow2 ey))) in *.
    assert (A : (mx * pow2 ex <= pow2 53 * pow2 ex)%Q)
      by (apply Qmult_le_compat_r; lra).
    assert (B : (pow2 52 * pow2 ey <= my * pow2 ey)%Q)
      by (apply Qmult_le_compat_r; lra).
    lra.
Qed.

(** Rounding is monotone. *)
Lemma round64_mono (x y : Q) : (x <= y -> round64 x <= round64 y)%Q.
Proof.
  intros H.
  destruct (Qlt_le_dec 0 x) as [Hx | Hx].
  - now apply round64_mono_pos.
  - destruct (Qlt_le_dec y 0) as [Hy | Hy].
    + assert (L : (round64 (- y) <= round64 (- x))%Q)
        by (apply round64_mono_pos; lra).
      rewrite !round64_opp in L. lra.
    + pose proof (round64_sign_neg x Hx). pose proof (round64_sign_pos y Hy). lra.
Qed.

Lemma fadd_mono (x y y' : Q) : (y <= y' -> fadd x y <= fadd x y')%Q.
Proof. intros H. apply round64_mono. lra. Qed.

(** A float sum is off its first term by the second, and by the rounding
    of the sum. *)
Lemma fadd_error (x y : Q) :
  (Qabs (fadd x y - x) <= Qabs y + eps * (Qabs x + Qabs y))%Q.
Proof.
  unfold fadd. pose proof (round64_error (x + y)) as H.
  pose proof (Qabs_triangle x y) as T.
  pose proof (Qabs_triangle (round64 (x + y) - (x + y)) y) as T'.
  assert (E : (round64 (x + y) - (x + y) + y == round64 (x + y) - x)%Q) by ring.
  rewrite E in T'.
  assert (M : (eps * Qabs (x + y) <= eps * (Qabs x + Qabs y))%Q).
  { apply Qmult_le_l; [reflexivity | exact T]. }
  lra.
Qed.

(** [random()] lies in [0, 1). *)
Lemma random_bounds (g : nat -> Z) : (0 <= fst (random g) < 1)%Q.
Proof.
  unfold random. cbn [fst]. rewrite Qred_correct.
  set (k := g 0%nat mod 9007199254740992).
  assert (Hk : 0 <= k < 9007199254740992) by (apply Z.mod_pos_bound; lia).
  unfold Qle, Qlt. simpl. lia.
Qed.

(** [uniform(a, b)] stays between its bounds when these are floats whose
    float difference does not exceed their difference. *)
Lemma uniform_bounds (a b : Q) (g : nat -> Z) :
  (round64 a == a)%Q -> (round64 b == b)%Q -> (a <= b)%Q ->
  (fsub b a <= b - a)%Q ->
  (a <= fst (uniform a b g) <= b)%Q.
Proof.
  intros Ha Hb Hab Hd. unfold uniform.
  pose proof (random_bounds g) as Hr.
  destruct (random g) as [r g']. cbn [fst] in *.
  assert (H0 : (0 <= fsub b a)%Q) by (apply round64_sign_pos; lra).
  assert (H1 : (0 <= fsub b a * r)%Q) by nra.
  assert (H2 : (fsub b a * r <= b - a)%Q) by nra.
  assert (L : (0 <= fmul (fsub b a) r)%Q) by (now apply round64_sign_pos).
  assert (U : (fmul (fsub b a) r <= b - a)%Q).
  { unfold fmul. apply round64_mono in H2. fold (fsub b a) in H2. lra. }
  unfold fadd. split.
  - rewrite <- Ha at 1. apply round64_mono. lra.
  - rewrite <- Hb at 2. apply round64_mono. lra.
Qed.

(** The draws of the handlers. *)
Lemma uniform_symmetric (c : Q) (g : nat -> Z) :
  (round64 c == c)%Q -> (0 <= c)%Q -> (fsub c (- c) <= c - - c)%Q ->
  (Qabs (fst (uniform (- c) c g)) <= c)%Q.
Proof.
  intros Hc H0 Hd. apply Qabs_Qle_condition.
  apply uniform_bounds; [| assumption | lra | assumption].
  rewrite round64_opp, Hc. reflexivity.
Qed.

Lemma double_opp (x : Q) : double (- x) = (- double x)%Q.
Proof.
  unfold double, round64.
  destruct x as [n d]. unfold Qopp at 1. cbn [Qnum Qden].
  destruct (Z.eq_dec n 0) as [-> | Hn]; [reflexivity |].
  assert (E0 : Qeq_bool (n # d) 0 = false).
  { apply not_true_is_false. intros H. apply Qeq_bool_iff in H.
    unfold Qeq in H. simpl in H. lia. }
  assert (E1 : Qeq_bool (- n # d) 0 = false).
  { apply not_true_is_false. intros H. apply Qeq_bool_iff in H.
    unfold Qeq in H. simpl in H. lia. }
  rewrite E0, E1.
  change (- n # d) with (- (n # d))%Q. rewrite exponent_opp.
  set (e := exponent (n # d)).
  pose proof (pow2_pos e) as Hp.
  assert (R : rne (- (n # d) / pow2 e) = - rne ((n # d) / pow2 e)).
  { rewrite <- rne_opp. apply rne_comp. field. lra. }
  rewrite R, inject_Z_opp.
  rewrite <- Qred_opp. apply Qred_complete. ring.
Qed.

Lemma drift_draw (g : nat -> Z) :
  (Qabs (fst (uniform (double (-0.0005)) (double 0.0005) g)) <= double 0.0005)%Q.
Proof.
  change (-0.0005)%Q with (Qopp 0.0005). rewrite double_opp.
  apply uniform_symmetric; qcompute.
Qed.

Lemma seed_draw (g : nat -> Z) :
  (Qabs (fst (uniform (double (-0.01)) (double 0.01) g)) <= double 0.01)%Q.
Proof.
  change (-0.01)%Q with (Qopp 0.01). rewrite double_opp.
  apply uniform_symmetric; qcompute.
Qed.

Lemma jitter_draw (g : nat -> Z) :
  (Qabs (fst (uniform (double (-0.0002)) (double 0.0002) g)) <= double 0.0002)%Q.
Proof.
  change (-0.0002)%Q with (Qopp 0.0002). rewrite double_opp.
  apply uniform_symmetric; qcompute.
Qed.

Lemma heading_draw (g : nat -> Z) : (0 <= fst (uniform 0 360 g) <= 360)%Q.
Proof. apply uniform_bounds; qcompute. Qed.

Lemma turn_draw (g : nat -> Z) : (-10 <= fst (uniform (-10) 10 g) <= 10)%Q.
Proof. apply uniform_bounds; qcompute. Qed.

Lemma speed_draw (g : nat -> Z) : (20 <= fst (uniform 20 60 g) <= 60)%Q.
Proof. apply uniform_bounds; qcompute. Qed.

End Rounding.

Section Control.

(** A [try] whose only clause is [except Exception] returning a value
    always returns. *)
Lemma try_except_returns {A} (P : A -> Prop) (body : Result A) (fallback : A) :
  P fallback ->
  (forall a, body = Returned a -> P a) ->
  exists a, try_except body (fun _ => Some (Returned fallback)) = Returned a /\ P a.
Proof.
  intros Hf Hb. destruct body as [a | e]; simpl.
  - exists a. auto.
  - exists fallback. auto.
Qed.

Lemma bind_Returned {A B} (m : Result A) (f : A -> Result B) (b : B) :
  (a ← m; f a) = Returned b -> exists a, m = Returned a /\ f a = Returned b.
Proof. destruct m as [a | e]; simpl; [eauto | discriminate]. Qed.

End Control.

Section AppLogin.
Context {rt : Runtime}.

(** C10: without [LOC_API_TOKEN] or without [MYTRIPS_API_BASEURL] the
    answer of [app_login] is authenticated=false with the message
    "Authentication service unavailable", for every backend (the mock one
    included) and every credential pair. *)
Theorem app_login_unconfigured (env : Env) (db : Backend) (o : Oracle)
    (credentials : AppLoginRequest) :
  LOC_API_TOKEN env = None \/ MYTRIPS_API_BASEURL env = None ->
  app_login env db o credentials
  = Returned {| authenticated := false; user_id := None;
                message := Some "Authentication service unavailable" |}.
Proof.
  intros [E | E]; unfold app_login; rewrite E; simpl.
  - reflexivity.
  - destruct (unset (LOC_API_TOKEN env)); reflexivity.
Qed.

(** C2: when the call to the identity API fails (timeout, exception of the
    client, status other than 200), [app_login] returns, and its answer has
    authenticated=false and one of the service's messages, none empty. *)
Theorem app_login_upstream_failure (env : Env) (db : Backend) (o : Oracle)
    (credentials : AppLoginRequest) :
  MOCK_AUTH_ENABLED db = false ->
  upstream_failed (identity_answer env o credentials) = true ->
  exists msg,
    app_login env db o credentials
    = Returned {| authenticated := false; user_id := None; message := Some msg |}
    /\ msg <> "" /\ In msg service_messages.
Proof.
  intros Hdb Hfail. unfold app_login.
  destruct (unset (LOC_API_TOKEN env)); [refused |].
  destruct (unset (MYTRIPS_API_BASEURL env)); [refused |].
  destruct db as [m | users]; [discriminate |].
  unfold identity_answer in Hfail. unfold send.
  destruct (net o _) as [ | why | status_code body]; simpl in *.
  - refused.
  - refused.
  - apply negb_true_iff in Hfail. rewrite Hfail.
    destruct (Z.eqb status_code 401 || Z.eqb status_code 403); simpl; refused.
Qed.

(** C5, as amended: [app_login] always returns, and the message of its
    answer is one of the service's own fixed messages, with one exception:
    when the identity API was called and answered 200 with a JSON object,
    the message may be the [message] entry of that object.  That entry,
    when it is a non-empty string, is handed to the caller as it is. *)
Theorem app_login_message_source (env : Env) (db : Backend) (o : Oracle)
    (credentials : AppLoginRequest) :
  exists r,
    app_login env db o credentials = Returned r
    /\ (forall m,
          message r = Some m ->
          In m service_messages
          \/ (calls_identity_api env db = true
              /\ exists d,
                   identity_answer env o credentials
                   = Response 200 (Json (JObj d))
                   /\ dict_lookup "message" d = Some (JStr m)))
    /\ (forall d m,
          calls_identity_api env db = true ->
          identity_answer env o credentials = Response 200 (Json (JObj d)) ->
          dict_lookup "message" d = Some (JStr m) ->
          m <> "" ->
          message r = Some m).
Proof.
  unfold app_login, calls_identity_api, identity_answer.
  destruct (unset (LOC_API_TOKEN env)); [own_message |].
  destruct (unset (MYTRIPS_API_BASEURL env)); [own_message |].
  destruct db as [mk | users].
  { destruct (_ && _); own_message. }
  unfold send.
  destruct (net o _) as [ | why | status_code body]; [own_message .. |].
  cbn [mbind Result_bind].
  destruct (Z.eqb_spec status_code 200) as [-> | Hs].
  2:{ destruct (_ || _); own_message. }
  destruct body as [text | data]; [own_message |].
  destruct data as [ | | | | | d]; [own_message .. |].
  simpl.
  destruct (dict_lookup "message" d) as [v |] eqn:Em; simpl.
  2:{ destruct (truthy _ && truthy _); own_message. }
  destruct (truthy _ && truthy _); simpl.
  - destruct v as [ | b | q | s | l | d']; own_message.
  - destruct v as [ | b | q | s | l | d']; unfold py_or; simpl;
      try destruct b; try destruct (Qeq_bool q 0);
      try destruct l; try destruct d';
      try destruct (String.eqb_spec s ""); subst; own_message.
Qed.

End AppLogin.

Lemma app_login_unconfigured_witness :
  (LOC_API_TOKEN mock_env = None \/ MYTRIPS_API_BASEURL mock_env = None)
  /\ app_login (rt := sample_runtime) mock_env (MockAuth sample_mock)
       (oracle 0 Timeout) mock_credentials
     = Returned {| authenticated := false; user_id := None;
                   message := Some "Authentication service unavailable" |}.
Proof.
  split; [left; reflexivity |].
  apply (app_login_unconfigured (rt := sample_runtime)). left. reflexivity.
Defined.

Lemma app_login_upstream_failure_witness :
  exists msg,
    app_login (rt := sample_runtime) live_env (Mongo [alice])
      (oracle 0 (Response 503 (NotJson "<html>Bad gateway</html>")))
      mock_credentials
    = Returned {| authenticated := false; user_id := None; message := Some msg |}
    /\ msg <> "" /\ In msg service_messages.
Proof.
  apply (app_login_upstream_failure (rt := sample_runtime)); reflexivity.
Defined.

(** C5, refuted as stated: the text of the upstream body is the message
    the caller receives, and it is none of the service's own. *)
Lemma app_login_reflects_upstream_message :
  app_login (rt := sample_runtime) live_env (Mongo [alice])
    (oracle 0 refusing_answer) mock_credentials
  = Returned {| authenticated := false; user_id := None;
                message := Some upstream_text |}
  /\ ~ In upstream_text service_messages.
Proof.
  split; [reflexivity |].
  simpl. intros Hin.
  repeat (destruct Hin as [Hin | Hin]; [discriminate |]). exact Hin.
Qed.

Lemma app_login_message_source_witness :
  exists r, app_login (rt := sample_runtime) live_env (Mongo [alice])
              (oracle 0 refusing_answer) mock_credentials = Returned r
            /\ message r = Some upstream_text.
Proof.
  destruct (app_login_message_source (rt := sample_runtime) live_env
              (Mongo [alice]) (oracle 0 refusing_answer) mock_credentials)
    as [r [E [_ Hpass]]].
  exists r. split; [exact E |].
  apply (Hpass [ ("authenticated", JBool false);
                 ("message", JStr upstream_text) ]);
    [reflexivity | reflexivity | reflexivity | discriminate].
Defined.

Section Auth.
Context {rt : Runtime}.

Lemma dict_lookup_update_eq (k : string) (v : JSON) (d : dict) :
  dict_lookup k (dict_update k v d) = Some v.
Proof.
  induction d as [| [k' v'] d IH]; simpl.
  - now rewrite String.eqb_refl.
  - destruct (String.eqb k k') eqn:E; simpl.
    + now rewrite String.eqb_refl.
    + now rewrite E.
Qed.

Lemma dict_lookup_update_ne (k k' : string) (v : JSON) (d : dict) :
  k <> k' -> dict_lookup k' (dict_update k v d) = dict_lookup k' d.
Proof.
  intros Hne. induction d as [| [k0 v0] d IH]; simpl.
  - apply not_eq_sym in Hne. apply String.eqb_neq in Hne. now rewrite Hne.
  - destruct (String.eqb k k0) eqn:E; simpl.
    + apply String.eqb_eq in E. subst k0.
      apply not_eq_sym in Hne. apply String.eqb_neq in Hne. now rewrite Hne.
    + destruct (String.eqb k' k0); [reflexivity | exact IH].
Qed.

Lemma py_int_inject_Z (z : Z) : jwt.py_int (inject_Z z) = z.
Proof. unfold jwt.py_int. simpl. apply Z.quot_1_r. Qed.

(** A point in time lies in the second it is cut to. *)
Lemma whole_seconds_bounds (T : Z) :
  whole_seconds T <= T < whole_seconds T + seconds 1.
Proof.
  unfold whole_seconds, seconds.
  pose proof (Z.div_mod T 1000000 ltac:(lia)).
  pose proof (Z.mod_pos_bound T 1000000 ltac:(lia)). lia.
Qed.

(** The expiry written into a token issued at [T], in microseconds. *)
Lemma expiry_issued (T : Z) :
  jwt.timegm (T + minutes ACCESS_TOKEN_EXPIRE_MINUTES) * 1000000
  = whole_seconds T + day.
Proof.
  unfold jwt.timegm, minutes, ACCESS_TOKEN_EXPIRE_MINUTES, whole_seconds, day,
    seconds.
  replace (T + 1440 * 60 * 1000000) with (T + 86400 * 1000000) by lia.
  rewrite Z.div_add by lia. lia.
Qed.

Lemma bind_Raised {A B} (m : Result A) (f : A -> Result B) (e : exn) :
  (a ← m; f a) = Raised e ->
  m = Raised e \/ exists a, m = Returned a /\ f a = Raised e.
Proof. destruct m as [a | e']; simpl; [eauto | intros [= <-]; now left]. Qed.

Lemma check_time_raises (claim : string) (late : Z -> bool) (e e' : exn)
    (payload : dict) :
  jwt.check_time claim late e payload = Raised e' ->
  e' = e \/ e' = InvalidTokenError.
Proof.
  unfold jwt.check_time.
  destruct (dict_lookup claim payload) as [[ | | q | | | ] |];
    try discriminate; try (intros [= <-]; now right).
  destruct (late _); [intros [= <-]; now left | discriminate].
Qed.

Lemma check_str_raises (claim : string) (e : exn) (payload : dict) :
  jwt.check_str claim payload = Raised e -> e = InvalidTokenError.
Proof.
  unfold jwt.check_str.
  destruct (dict_lookup claim payload) as [[ | | q | | | ] |];
    try discriminate; now intros [= <-].
Qed.

Lemma check_aud_raises (e : exn) (payload : dict) :
  jwt.check_aud payload = Raised e -> e = InvalidTokenError.
Proof.
  unfold jwt.check_aud.
  destruct (dict_lookup "aud" payload) as [v |]; [| discriminate].
  destruct (truthy v); [now intros [= <-] | discriminate].
Qed.

(** [jwt.decode] raises nothing but the two errors [get_current_user]
    catches. *)
Lemma decode_raises (t : Z) (token : jwt.token) (key : string) (e : exn) :
  jwt.decode t token key = Raised e ->
  e = ExpiredSignatureError \/ e = InvalidTokenError.
Proof.
  unfold jwt.decode.
  destruct token as [k payload | text]; [| intros [= <-]; now right].
  destruct (negb (String.eqb k key)); [intros [= <-]; now right |].
  intros E.
  apply bind_Raised in E as [E | [_ [_ E]]];
    [apply check_time_raises in E; tauto |].
  apply bind_Raised in E as [E | [_ [_ E]]];
    [apply check_time_raises in E; tauto |].
  apply bind_Raised in E as [E | [_ [_ E]]];
    [apply check_time_raises in E; tauto |].
  apply bind_Raised in E as [E | [_ [_ E]]];
    [apply check_aud_raises in E; tauto |].
  apply bind_Raised in E as [E | [_ [_ E]]];
    [apply check_str_raises in E; tauto |].
  apply bind_Raised in E as [E | [_ [_ E]]];
    [apply check_str_raises in E; tauto | discriminate].
Qed.

(** What [jwt.decode] makes of a token of [create_access_token]. *)
Lemma decode_issued (env : Env) (T t : Z) (data : dict) (uid : string) :
  subject_payload data uid ->
  jwt.decode t (create_access_token env T data) (SECRET_KEY env)
  = if Z.leb (whole_seconds T + day) t then Raised ExpiredSignatureError
    else Returned (dict_update "exp"
                     (jwt.datetime_claim (T + minutes ACCESS_TOKEN_EXPIRE_MINUTES))
                     data).
Proof.
  intros (Hsub & Hiat & Hnbf & Haud & Hjti).
  unfold create_access_token, jwt.encode, jwt.decode, jwt.check_time,
    jwt.check_aud, jwt.check_str.
  rewrite String.eqb_refl. cbn [negb].
  rewrite dict_lookup_update_eq.
  rewrite !dict_lookup_update_ne by discriminate.
  rewrite Hsub, Hiat, Hnbf, Haud, Hjti. unfold jwt.datetime_claim.
  cbn [mbind Result_bind]. rewrite py_int_inject_Z, expiry_issued.
  now destruct (Z.leb _ t).
Qed.

Lemma find_one_id_known (users : list UserDoc) (uid : string) :
  (exists d, In d users /\ doc_id d = uid) ->
  exists d, find_one_id (JStr uid) users = Some d /\ doc_id d = uid.
Proof.
  intros [d [Hin Hid]]. unfold find_one_id.
  destruct (List.find _ users) as [d' |] eqn:E.
  - apply List.find_some in E as [_ E]. simpl in E.
    apply String.eqb_eq in E. now exists d'.
  - apply (List.find_none _ _ E) in Hin. simpl in Hin.
    rewrite <- Hid, String.eqb_refl in Hin. discriminate.
Qed.

(** A token of [create_access_token] whose subject is a known user
    authenticates while it has not expired. *)
Lemma issued_token_accepted (env : Env) (db : Backend) (T t : Z) (data : dict)
    (uid : string) :
  subject_payload data uid ->
  subject_known db uid ->
  identity_valid db ->
  t < whole_seconds T + day ->
  exists u, get_current_user env db t (create_access_token env T data)
            = Returned u /\ id u = uid.
Proof.
  intros Hdata Hknown Hvalid Ht. unfold get_current_user.
  rewrite (decode_issued env T t data uid Hdata).
  destruct (Z.leb_spec (whole_seconds T + day) t) as [Hle | _]; [lia |].
  destruct Hdata as [Hsub _].
  simpl. rewrite dict_lookup_update_ne, Hsub by discriminate. simpl.
  destruct db as [m | users]; simpl in Hknown, Hvalid.
  - subst uid. rewrite String.eqb_refl. destruct Hvalid as [email Hvalid].
    unfold mock_user. rewrite Hvalid. simpl. now eexists.
  - destruct (find_one_id_known users uid Hknown) as [d [E Hid]].
    rewrite E. simpl. now exists (user_of_doc d).
Qed.

(** Once expired it is refused, whatever its subject. *)
Lemma issued_token_expired (env : Env) (db : Backend) (T t : Z) (data : dict)
    (uid : string) :
  subject_payload data uid ->
  whole_seconds T + day <= t ->
  get_current_user env db t (create_access_token env T data)
  = Raised (HTTPException 401 "Token expired").
Proof.
  intros Hdata Ht. unfold get_current_user.
  rewrite (decode_issued env T t data uid Hdata).
  destruct (Z.leb_spec (whole_seconds T + day) t) as [_ | Hlt]; [reflexivity | lia].
Qed.

(** C4, as amended: the expiry of a token issued at time [T] is [T] cut
    to its whole second, plus 24 h.  The token authenticates at every time
    before that instant (its subject being a known user, and the mock
    address a valid one), and is refused with 401 from that instant on:
    at every time after [T] + 24 h, and already during the fraction of a
    second before it. *)
Theorem token_valid_for_24h (env : Env) (db : Backend) (T t : Z) (data : dict)
    (uid : string) :
  let token := create_access_token env T data in
  subject_payload data uid ->
  (subject_known db uid -> identity_valid db ->
   t < whole_seconds T + day ->
   exists u, get_current_user env db t token = Returned u /\ id u = uid)
  /\ (whole_seconds T + day <= t ->
      get_current_user env db t token
      = Raised (HTTPException 401 "Token expired"))
  /\ (T + day < t ->
      get_current_user env db t token
      = Raised (HTTPException 401 "Token expired")).
Proof.
  intros token Hdata. subst token. split; [| split].
  - intros Hknown Hvalid Ht. now apply issued_token_accepted.
  - intros Ht. now apply issued_token_expired with uid.
  - intros Ht. apply issued_token_expired with uid; [assumption |].
    pose proof (whole_seconds_bounds T). lia.
Qed.

Lemma subject_payload_sub (uid : string) :
  subject_payload [("sub", JStr uid)] uid.
Proof. repeat split. Qed.

(** X5: The tokens [login] hands out meet the conditions of acceptance:
    they authenticate their user against the same backend until the whole
    second of their issuance plus 24 hours. *)
Lemma login_token_authenticates (env : Env) (db : Backend) (o : Oracle)
    (credentials : UserLogin) (tok : Token) (t : Z) :
  login env db o credentials = Returned tok ->
  t < whole_seconds (now o) + day ->
  exists u, get_current_user env db t (access_token tok) = Returned u
            /\ id u = id (user tok).
Proof.
  unfold login. intros E Ht. destruct db as [m | users].
  - destruct (_ && _); [| discriminate].
    unfold mock_user in E.
    destruct (validate_email (MOCK_USER_EMAIL m)) as [email |] eqn:Ev;
      [| discriminate].
    injection E as <-. cbn [access_token user id].
    apply issued_token_accepted;
      [apply subject_payload_sub | reflexivity | now exists email | exact Ht].
  - destruct (find_one_username _ users) as [d |] eqn:Ef; [| discriminate].
    apply bind_Returned in E as [verified [_ E]].
    destruct (negb verified); [discriminate |]. injection E as <-.
    cbn [access_token user].
    apply issued_token_accepted;
      [apply subject_payload_sub | | exact I | exact Ht].
    apply List.find_some in Ef as [Hin _]. now exists d.
Qed.

(** X6: So do the tokens of [register], against the collection that now
    holds the new user. *)
Lemma register_token_authenticates (env : Env) (users : list UserDoc)
    (o : Oracle) (user_data : UserCreate) (tok : Token) (db' : Backend) (t : Z) :
  register env (Mongo users) o user_data = (Returned tok, db') ->
  t < whole_seconds (now o) + day ->
  exists u, get_current_user env db' t (access_token tok) = Returned u
            /\ id u = id (user tok).
Proof.
  unfold register. intros E Ht.
  destruct (find_one_username_or_email _ _ users); [discriminate |].
  destruct (hash_password _ _) as [hashed | e]; [| discriminate].
  injection E as <- <-. cbn [access_token user id].
  apply issued_token_accepted;
    [apply subject_payload_sub | | exact I | exact Ht].
  eexists. split; [apply in_or_app; right; left; reflexivity | reflexivity].
Qed.

(** C3: a registration whose username or e-mail is that of a stored user
    fails with the 400 conflict and leaves the collection as it was. *)
Theorem register_duplicate (env : Env) (users : list UserDoc) (o : Oracle)
    (user_data : UserCreate) :
  (exists d, In d users
             /\ (doc_username d = uc_username user_data
                 \/ doc_email d = uc_email user_data)) ->
  register env (Mongo users) o user_data
  = (Raised (HTTPException 400 "Username or email already exists"), Mongo users).
Proof.
  intros [d [Hin Hdup]]. unfold register, find_one_username_or_email.
  destruct (List.find _ users) as [d' |] eqn:E; [reflexivity |].
  apply (List.find_none _ _ E) in Hin. simpl in Hin.
  apply orb_false_iff in Hin as [Hu He].
  apply String.eqb_neq in Hu, He. tauto.
Qed.

(** C9, as amended: in mock mode [login] answers 401 to every pair other
    than the configured username and password.  To the configured pair it
    returns a token exactly when the configured e-mail address is one that
    [EmailStr] accepts, and that token decodes to the subject
    [MOCK_USER_ID]; with an address that is none, building the [User]
    raises a [ValidationError], which is answered 500. *)
Theorem login_mock_mode (env : Env) (m : MockIdentity) (o : Oracle)
    (credentials : UserLogin) :
  let r := login env (MockAuth m) o credentials in
  let configured := ul_username credentials = MOCK_USERNAME m
                    /\ ul_password credentials = MOCK_PASSWORD m in
  ((exists t, r = Returned t) <-> configured /\ mock_email_valid m)
  /\ (configured -> mock_email_valid m ->
      exists t payload,
        r = Returned t /\ status_of r = 200
        /\ jwt.decode (now o) (access_token t) (SECRET_KEY env) = Returned payload
        /\ dict_lookup "sub" payload = Some (JStr (MOCK_USER_ID m)))
  /\ (configured -> ~ mock_email_valid m ->
      r = Raised ValidationError /\ status_of r = 500)
  /\ (~ configured -> r = Raised (HTTPException 401 "Invalid credentials")).
Proof.
  intros r configured. subst r configured. unfold login, mock_email_valid.
  destruct (String.eqb_spec (ul_username credentials) (MOCK_USERNAME m)) as [Eu | Nu];
    destruct (String.eqb_spec (ul_password credentials) (MOCK_PASSWORD m)) as [Ep | Np];
    simpl.
  2-4: split; [split; [intros [t Ht]; discriminate | tauto] |];
       split; [tauto |]; split; [tauto | reflexivity].
  unfold mock_user.
  destruct (validate_email (MOCK_USER_EMAIL m)) as [email |] eqn:Ev; simpl.
  - split; [split; [intros _; split; [tauto | now exists email]
                   | intros _; now eexists] |].
    split; [| split; [intros _ Hno; exfalso; apply Hno; now exists email | tauto]].
    intros _ _.
    eexists. eexists. split; [reflexivity |]. split; [reflexivity |].
    cbn [access_token id].
    rewrite (decode_issued env (now o) (now o) _ (MOCK_USER_ID m)
               (subject_payload_sub _)).
    pose proof (whole_seconds_bounds (now o)) as Hb.
    destruct (Z.leb_spec (whole_seconds (now o) + day) (now o)) as [Hle | _];
      [unfold day, seconds in *; lia |].
    split; [reflexivity |]. now rewrite dict_lookup_update_ne by discriminate.
  - split; [split; [intros [t Ht]; discriminate
                   | intros [_ [email Hv]]; discriminate] |].
    split; [intros _ [email Hv]; discriminate |].
    split; [intros _ _; split; reflexivity | tauto].
Qed.

End Auth.

(** C4, refuted as stated: a token issued at 1000.9 s is refused at
    87400.5 s, which is before the 24 hours after its issuance have
    passed. *)
Lemma token_refused_before_24h :
  let T := 1000900000 in
  let t := 87400500000 in
  t < T + day
  /\ subject_known (Mongo [alice]) "id-alice"
  /\ get_current_user (rt := sample_runtime) live_env (Mongo [alice]) t
       (create_access_token live_env T [("sub", JStr "id-alice")])
     = Raised (HTTPException 401 "Token expired").
Proof.
  split; [reflexivity |]. split; [| reflexivity].
  exists alice. split; [left |]; reflexivity.
Qed.

Lemma token_valid_for_24h_witness :
  let token := create_access_token live_env 1000900000 [("sub", JStr "id-alice")] in
  subject_payload [("sub", JStr "id-alice")] "id-alice"
  /\ (exists u, get_current_user (rt := sample_runtime) live_env (Mongo [alice])
                  87399999999 token
                = Returned u /\ id u = "id-alice")
  /\ get_current_user (rt := sample_runtime) live_env (Mongo [alice])
       87400000000 token
     = Raised (HTTPException 401 "Token expired").
Proof.
  split; [repeat split |]. split.
  - apply (proj1 (token_valid_for_24h (rt := sample_runtime) live_env
                    (Mongo [alice]) 1000900000 87399999999
                    [("sub", JStr "id-alice")] "id-alice"
                    ltac:(repeat split))).
    + exists alice. split; [left |]; reflexivity.
    + exact I.
    + reflexivity.
  - apply (proj1 (proj2 (token_valid_for_24h (rt := sample_runtime) live_env
                           (Mongo [alice]) 1000900000 87400000000
                           [("sub", JStr "id-alice")] "id-alice"
                           ltac:(repeat split)))).
    discriminate.
Defined.

Lemma register_duplicate_witness :
  register (rt := sample_runtime) live_env (Mongo [alice]) (oracle 2000 Timeout)
    {| uc_username := "alice2"; uc_email := "alice@example.com";
       uc_password := "pw" |}
  = (Raised (HTTPException 400 "Username or email already exists"),
     Mongo [alice]).
Proof.
  apply (register_duplicate (rt := sample_runtime)).
  exists alice. split; [left; reflexivity | right; reflexivity].
Defined.

(** C9, refuted as stated: with a configured address that is no e-mail
    address, the configured username and password are answered 500, not
    with a token. *)
Lemma login_mock_invalid_email :
  let r := login (rt := sample_runtime) mock_env (MockAuth broken_mock)
             (oracle 5000 Timeout) mock_login in
  ul_username mock_login = MOCK_USERNAME broken_mock
  /\ ul_password mock_login = MOCK_PASSWORD broken_mock
  /\ r = Raised ValidationError
  /\ status_of r = 500.
Proof. repeat split. Qed.

Lemma login_mock_mode_witness :
  exists t payload,
    login (rt := sample_runtime) mock_env (MockAuth sample_mock)
      (oracle 5000 Timeout) mock_login = Returned t
    /\ status_of (login (rt := sample_runtime) mock_env (MockAuth sample_mock)
                    (oracle 5000 Timeout) mock_login) = 200
    /\ jwt.decode 5000 (access_token t) (SECRET_KEY mock_env) = Returned payload
    /\ dict_lookup "sub" payload = Some (JStr "mock-user-123").
Proof.
  apply (proj1 (proj2 (login_mock_mode (rt := sample_runtime) mock_env
                         sample_mock (oracle 5000 Timeout) mock_login))).
  - split; reflexivity.
  - now exists "testuser@example.com".
Defined.

Section Proxy.
Context {rt : Runtime}.

(** C7: when the user listing fails upstream, [get_trackable_users] still
    returns (status 200) a list that is not empty: the two-user fallback
    list whenever the location API was called. *)
Theorem users_fallback (env : Env) (db : Backend) (o : Oracle) :
  listing_failed (users_answer env o) = true ->
  exists l,
    get_trackable_users env db o = Returned l
    /\ status_of (get_trackable_users env db o) = 200
    /\ l <> []
    /\ (calls_location_api env db = true -> l = fallback_users).
Proof.
  intros Hfail. unfold get_trackable_users, calls_location_api.
  destruct (MOCK_AUTH_ENABLED db || unset (LOC_API_BASEURL env)
            || unset (LOC_API_TOKEN env)).
  { exists mock_users. repeat split; [discriminate | discriminate]. }
  exists fallback_users.
  match goal with
  | |- context [try_except ?b ?h] =>
      assert (E : try_except b h = Returned fallback_users)
  end.
  { unfold users_answer in Hfail. unfold send.
    destruct (net o _) as [ | why | status_code body]; simpl in *;
      try reflexivity.
    destruct (Z.eqb status_code 200); simpl in *; [| reflexivity].
    destruct body as [text | data]; simpl; [reflexivity |].
    destruct data as [ | | | | | d]; simpl; try reflexivity.
    destruct (eq_str _ "success"); simpl; [| reflexivity].
    unfold carried_users in Hfail.
    destruct (dict_lookup "data" d) as [dv |]; simpl; [| reflexivity].
    destruct dv as [ | | | | | dd]; simpl; try reflexivity.
    destruct (dict_lookup "users" dd) as [u |]; simpl in *; [| reflexivity].
    destruct u as [ | | | | [| x l] | ]; simpl in *;
      try discriminate; reflexivity. }
  rewrite E. repeat split. discriminate.
Qed.

Lemma mock_history_loop_lengths (now : Z) (range : list nat) :
  forall g cs ts cs' ts' g',
    mock_history_loop now range g cs ts = (cs', ts', g') ->
    length cs = length ts -> length cs' = length ts'.
Proof.
  induction range as [| i range IH]; simpl; intros g cs ts cs' ts' g' E Hlen.
  - now inversion E; subst.
  - apply IH in E; [exact E |]. rewrite !length_app. simpl. lia.
Qed.

Lemma fallback_history_loop_lengths (now : Z) (range : list nat) :
  forall cs ts cs' ts',
    fallback_history_loop now range cs ts = (cs', ts') ->
    length cs = length ts -> length cs' = length ts'.
Proof.
  induction range as [| i range IH]; simpl; intros cs ts cs' ts' E Hlen.
  - now inversion E; subst.
  - apply IH in E; [exact E |]. rewrite !length_app. simpl. lia.
Qed.

Lemma history_loop_lengths (now : Z) (items : list JSON) :
  forall cs ts cs' ts',
    history_loop now items cs ts = Returned (cs', ts') ->
    length cs = length ts -> length cs' = length ts'.
Proof.
  induction items as [| location items IH]; simpl; intros cs ts cs' ts' E Hlen.
  - now inversion E; subst.
  - apply bind_Returned in E as [latitude [_ E]].
    apply bind_Returned in E as [longitude [_ E]].
    apply bind_Returned in E as [server_time_str [_ E]].
    apply IH in E; [exact E |]. rewrite !length_app. simpl. lia.
Qed.

Lemma history_fallback_lengths (o : Oracle) (user_id : string) :
  length (coordinates (history_fallback o user_id))
  = length (timestamps (history_fallback o user_id)).
Proof.
  unfold history_fallback.
  destruct (fallback_history_loop _ _ _ _) as [cs ts] eqn:E. simpl.
  now apply fallback_history_loop_lengths in E.
Qed.

(** C6: [get_route_history] always returns, and what it returns has as
    many coordinates as timestamps: on the mock path, on the proxied path
    whatever the upstream entries hold, and on both fallbacks. *)
Theorem route_history_lengths (env : Env) (w : World) (o : Oracle)
    (user_id : string) (limit : Z) (date_from date_to : option string) :
  exists h,
    fst (get_route_history env w o user_id limit date_from date_to) = Returned h
    /\ length (coordinates h) = length (timestamps h).
Proof.
  unfold get_route_history.
  destruct (MOCK_AUTH_ENABLED (db w) || unset (LOC_API_BASEURL env)
            || unset (LOC_API_TOKEN env)).
  - destruct (mock_history_loop _ _ _ _ _) as [[cs ts] g] eqn:E. simpl.
    eexists. split; [reflexivity |]. simpl.
    now apply mock_history_loop_lengths in E.
  - cbn [fst].
    apply try_except_returns; [apply history_fallback_lengths |].
    intros h E.
    apply bind_Returned in E as [[status_code body] [_ E]].
    destruct (Z.eqb status_code 200);
      [| injection E as <-; apply history_fallback_lengths].
    apply bind_Returned in E as [data [_ E]].
    apply bind_Returned in E as [success [_ E]].
    apply bind_Returned in E as [found [_ E]].
    destruct found; [| injection E as <-; apply history_fallback_lengths].
    apply bind_Returned in E as [d [_ E]].
    apply bind_Returned in E as [items [_ E]].
    apply bind_Returned in E as [[cs ts] [Hloop E]].
    injection E as <-. simpl.
    now apply history_loop_lengths in Hloop.
Qed.

End Proxy.

Section Surface.
Context {rt : Runtime}.

Lemma eq_str_true (v : JSON) (s : string) : eq_str v s = true -> v = JStr s.
Proof.
  destruct v; simpl; try discriminate.
  intros E. apply String.eqb_eq in E. now subst.
Qed.

Lemma get_trackable_users_returns (env : Env) (db : Backend) (o : Oracle) :
  exists l, get_trackable_users env db o = Returned l.
Proof.
  unfold get_trackable_users.
  destruct (_ || _); [now eexists |].
  match goal with
  | |- context [try_except ?b _] => destruct b as [l | e]
  end; simpl; now eexists.
Qed.

Lemma location_fallback_returns (w : World) (o : Oracle) (user_id : string) :
  exists l, fst (location_fallback w o user_id) = Returned l.
Proof.
  unfold location_fallback.
  destruct (location_state w !! user_id); simpl; now eexists.
Qed.

Lemma get_user_location_returns (env : Env) (w : World) (o : Oracle)
    (user_id : string) :
  exists l, fst (get_user_location env w o user_id) = Returned l.
Proof.
  unfold get_user_location.
  destruct (_ || _).
  - destruct (simulate _ _) as [st g]. destruct (uniform 20 60 g) as [v g'].
    simpl. now eexists.
  - match goal with
    | |- context [match ?b with Returned _ => _ | Raised _ => _ end] =>
        destruct b as [[l |] | e]
    end; [simpl; now eexists | apply location_fallback_returns ..].
Qed.

Lemma get_route_history_returns (env : Env) (w : World) (o : Oracle)
    (user_id : string) (limit : Z) (date_from date_to : option string) :
  exists h, fst (get_route_history env w o user_id limit date_from date_to)
            = Returned h.
Proof.
  unfold get_route_history.
  destruct (_ || _).
  - destruct (mock_history_loop _ _ _ _ _) as [[cs ts] g]. simpl. now eexists.
  - cbn [fst].
    match goal with
    | |- context [try_except ?b _] => destruct b as [h | e]
    end; simpl; now eexists.
Qed.

(** C1, as amended: the bearer token of a request is looked at for
    [GET auth/me] only.  Every other route answers the same with and
    without it; [GET users], [GET location/{user_id}] and
    [GET history/{user_id}] answer 200 whatever the request carries;
    [GET auth/me] succeeds only for a token that [jwt.decode] accepts and
    whose subject is a known user, and answers 401 to a token that
    [jwt.decode] refuses. *)
Theorem bearer_token_enforcement (env : Env) (w : World) (o : Oracle)
    (auth : option jwt.token) :
  (forall e, e <> GET_auth_me ->
             serve env w o (request e auth) = serve env w o (request e None))
  /\ (forall e, data_route e = true ->
                status_of (fst (serve env w o (request e auth))) = 200)
  /\ (forall p, fst (serve env w o (request GET_auth_me auth)) = Returned p ->
                exists token payload uid,
                  auth = Some token
                  /\ jwt.decode (now o) token (SECRET_KEY env) = Returned payload
                  /\ dict_lookup "sub" payload = Some (JStr uid)
                  /\ subject_known (db w) uid)
  /\ (forall token e,
         auth = Some token ->
         jwt.decode (now o) token (SECRET_KEY env) = Raised e ->
         status_of (fst (serve env w o (request GET_auth_me auth))) = 401).
Proof.
  split; [| split; [| split]].
  - intros e He. destruct e; try reflexivity. contradiction.
  - intros e He. unfold serve.
    destruct e; try discriminate; cbn [endpoint request].
    + destruct (get_trackable_users_returns env (db w) o) as [l E].
      now rewrite E.
    + destruct (get_user_location_returns env w o user_id0) as [l E].
      destruct (get_user_location env w o user_id0) as [r w']. simpl in *.
      now rewrite E.
    + destruct (get_route_history_returns env w o user_id0 limit date_from
                  date_to) as [h E].
      destruct (get_route_history env w o user_id0 limit date_from date_to)
        as [r w'].
      simpl in *. now rewrite E.
  - intros p. unfold serve. cbn [endpoint request authorization fst].
    destruct auth as [token |]; [| discriminate].
    unfold get_current_user, security. simpl.
    destruct (jwt.decode (now o) token (SECRET_KEY env)) as [payload | e] eqn:E;
      [| destruct e; simpl; discriminate].
    simpl.
    destruct (dict_lookup "sub" payload) as [user_id |] eqn:Es; simpl;
      [| discriminate].
    destruct (db w) as [m | users].
    + destruct (eq_str user_id (MOCK_USER_ID m)) eqn:Eq;
        [| destruct user_id; simpl; discriminate].
      apply eq_str_true in Eq. subst user_id. intros _.
      now exists token, payload, (MOCK_USER_ID m).
    + destruct (find_one_id user_id users) as [d |] eqn:Ef;
        [| destruct user_id; simpl; discriminate].
      apply List.find_some in Ef as [Hin Eq].
      apply eq_str_true in Eq. subst user_id. intros _.
      exists token, payload, (doc_id d).
      split; [reflexivity |]. split; [exact E |]. split; [exact Es |].
      now exists d.
  - intros token e -> E. unfold serve. cbn [endpoint request authorization fst].
    simpl. unfold get_current_user. rewrite E. simpl.
    now destruct (decode_raises _ _ _ _ E) as [-> | ->].
Qed.

(** The mock branch of [get_user_location] as one step on the table. *)
Lemma mock_location_step (env : Env) (w : World) (o : Oracle) (user_id : string) :
  MOCK_AUTH_ENABLED (db w) = true ->
  exists st g l g',
    simulate (location_state w !! user_id) (rng w) = (st, g)
    /\ lat l = st_lat st
    /\ get_user_location env w o user_id
       = (Returned l,
          {| db := db w;
             location_state := <[user_id := st]> (location_state w);
             rng := g' |}).
Proof.
  intros Hmock. unfold get_user_location. rewrite Hmock. cbn [orb].
  destruct (simulate (location_state w !! user_id) (rng w)) as [st g].
  destruct (uniform 20 60 g) as [v g1].
  eexists st, g, _, g1. split; [reflexivity |]. split; [| reflexivity]. reflexivity.
Qed.

(** C8, as amended: in mock mode two successive calls of
    [get_user_location] for one id return latitudes of which the second
    is the float sum of the first and of the delta drawn by the second
    call.  The delta is at most the float 0.0005 in absolute value and may
    be zero; the second latitude lies between the float sums of the first
    with -0.0005 and with 0.0005, so that the two differ by at most 0.0005
    and the rounding of that one addition. *)
Theorem mock_location_drift (env : Env) (w : World) (o1 o2 : Oracle)
    (user_id : string) :
  MOCK_AUTH_ENABLED (db w) = true ->
  exists l1 w1 l2 w2,
    get_user_location env w o1 user_id = (Returned l1, w1)
    /\ get_user_location env w1 o2 user_id = (Returned l2, w2)
    /\ let delta := fst (uniform (double (-0.0005)) (double 0.0005) (rng w1)) in
       lat l2 = fadd (lat l1) delta
       /\ (Qabs delta <= double 0.0005)%Q
       /\ (fadd (lat l1) (double (-0.0005)) <= lat l2
           <= fadd (lat l1) (double 0.0005))%Q
       /\ (Qabs (lat l2 - lat l1) <= 0.0005 + eps * (Qabs (lat l1) + 1))%Q.
Proof.
  intros Hmock.
  destruct (mock_location_step env w o1 user_id Hmock)
    as (st1 & g0 & l1 & g1 & _ & Hl1 & E1).
  match type of E1 with
  | _ = (_, ?w1) =>
      destruct (mock_location_step env w1 o2 user_id Hmock)
        as (st2 & g2 & l2 & g2' & Hs2 & Hl2 & E2)
  end.
  cbn [db location_state rng] in Hs2. rewrite lookup_insert_eq in Hs2.
  unfold simulate in Hs2.
  pose proof (drift_draw g1) as Hb.
  eexists _, _, _, _. split; [exact E1 |]. split; [exact E2 |].
  rewrite Hl1, Hl2. cbn [rng]. cbv zeta.
  destruct (uniform (double (-0.0005)) (double 0.0005) g1) as [dlat g3].
  destruct (uniform (double (-0.0005)) (double 0.0005) g3) as [dlng g4].
  destruct (uniform (-10) 10 g4) as [dh g5].
  injection Hs2 as <- <-. cbn [st_lat fst] in *.
  split; [reflexivity |]. split; [exact Hb |].
  pose proof Hb as Hd. apply Qabs_Qle_condition in Hd.
  assert (Eo : double (-0.0005) = (- double 0.0005)%Q).
  { change (-0.0005)%Q with (Qopp 0.0005). apply double_opp. }
  split.
  - rewrite Eo. split; apply fadd_mono; lra.
  - pose proof (fadd_error (st_lat st1) dlat) as He.
    pose proof (Qabs_nonneg (st_lat st1)) as Hn.
    assert (Hc : (double 0.0005 + eps * double 0.0005 <= 0.0005 + eps)%Q)
      by qcompute.
    assert (Hm : (eps * Qabs dlat <= eps * double 0.0005)%Q).
    { apply Qmult_le_l; [reflexivity | exact Hb]. }
    lra.
Qed.

End Surface.

(** C1, refuted as stated: in production mode a request for [GET users]
    that carries no bearer token at all is answered 200 with the users of
    the location API, not 401. *)
Lemma users_served_without_token :
  let r := fst (serve (rt := sample_runtime) live_env
                  (world (Mongo [alice]) (fun _ => 0))
                  (oracle 0 listing_answer) (request GET_users None)) in
  r = Returned (Users [ {| tu_id := "7"; tu_name := "Dana"; tu_status := "active" |} ])
  /\ status_of r = 200
  /\ status_of r <> 401.
Proof.
  vm_compute. split; [reflexivity |]. split; [reflexivity | discriminate].
Qed.

Lemma bearer_token_enforcement_witness :
  data_route (GET_location "user-42") = true
  /\ status_of (fst (serve (rt := sample_runtime) live_env
                       (world (Mongo [alice]) (fun _ => 0))
                       (oracle 0 Timeout)
                       (request (GET_location "user-42") (Some (jwt.Garbage "x")))))
     = 200.
Proof.
  split; [reflexivity |].
  apply (proj1 (proj2 (bearer_token_enforcement (rt := sample_runtime) live_env
                         (world (Mongo [alice]) (fun _ => 0)) (oracle 0 Timeout)
                         (Some (jwt.Garbage "x"))))).
  reflexivity.
Defined.

Lemma users_fallback_witness :
  exists l,
    get_trackable_users (rt := sample_runtime) live_env (Mongo [alice])
      (oracle 0 (Response 500 (NotJson "Internal Server Error"))) = Returned l
    /\ status_of (get_trackable_users (rt := sample_runtime) live_env
                    (Mongo [alice])
                    (oracle 0 (Response 500 (NotJson "Internal Server Error"))))
       = 200
    /\ l <> []
    /\ (calls_location_api live_env (Mongo [alice]) = true -> l = fallback_users).
Proof.
  apply (users_fallback (rt := sample_runtime)). reflexivity.
Defined.

(** C8, refuted as stated.  When the second call draws the midpoint, its
    delta is 0 and the second latitude is the first one, bit for bit.
    When it draws the lower end, the two latitudes are 40.7489 and
    40.7484 and differ by more than 0.0005, the float addition having
    rounded away from the first. *)
Lemma mock_location_drift_refuted :
  (exists l1 w1 l2 w2,
      get_user_location (rt := sample_runtime) mock_env
        (world (MockAuth sample_mock) still_draws) (oracle 0 Timeout) "user-42"
      = (Returned l1, w1)
      /\ get_user_location (rt := sample_runtime) mock_env w1 (oracle 1 Timeout)
           "user-42" = (Returned l2, w2)
      /\ fst (uniform (double (-0.0005)) (double 0.0005) (rng w1)) = 0%Q
      /\ lat l2 = lat l1)
  /\ (exists l1 w1 l2 w2,
         get_user_location (rt := sample_runtime) mock_env
           (world (MockAuth sample_mock) (fun _ => 0)) (oracle 0 Timeout)
           "user-42"
         = (Returned l1, w1)
         /\ get_user_location (rt := sample_runtime) mock_env w1
              (oracle 1 Timeout) "user-42" = (Returned l2, w2)
         /\ lat l1 = double 40.7489 /\ lat l2 = double 40.7484
         /\ (0.0005 < Qabs (lat l2 - lat l1))%Q).
Proof.
  split.
  - eexists _, _, _, _. split; [vm_compute; reflexivity |].
    split; [vm_compute; reflexivity |]. split; vm_compute; reflexivity.
  - eexists _, _, _, _. split; [vm_compute; reflexivity |].
    split; [vm_compute; reflexivity |].
    split; [vm_compute; reflexivity |]. split; [vm_compute; reflexivity |].
    apply Qlt_alt. vm_compute. reflexivity.
Qed.

Lemma mock_location_drift_witness :
  exists l1 w1 l2 w2,
    get_user_location (rt := sample_runtime) mock_env
      (world (MockAuth sample_mock) steady_draws)
      (oracle 0 Timeout) "user-42" = (Returned l1, w1)
    /\ get_user_location (rt := sample_runtime) mock_env w1 (oracle 1 Timeout)
         "user-42" = (Returned l2, w2)
    /\ let delta := fst (uniform (double (-0.0005)) (double 0.0005) (rng w1)) in
       lat l2 = fadd (lat l1) delta
       /\ (Qabs delta <= double 0.0005)%Q
       /\ (fadd (lat l1) (double (-0.0005)) <= lat l2
           <= fadd (lat l1) (double 0.0005))%Q
       /\ (Qabs (lat l2 - lat l1) <= 0.0005 + eps * (Qabs (lat l1) + 1))%Q.
Proof.
  apply (mock_location_drift (rt := sample_runtime)). reflexivity.
Defined.

(** ** Further properties of the auth routes *)

Section AuthFurther.
Context {rt : Runtime}.

Lemma find_app_none {A} (f : A -> bool) (l k : list A) :
  List.find f l = None -> List.find f (l ++ k) = List.find f k.
Proof.
  induction l as [| x l IH]; simpl; [reflexivity |].
  destruct (f x); [discriminate | exact IH].
Qed.

(** X1: Registration keeps usernames and e-mails unique: from a collection in
    which no two users share a username or an e-mail, [register] leads to
    such a collection again, whether it accepts or refuses. *)
Theorem register_keeps_unique (env : Env) (users : list UserDoc) (o : Oracle)
    (user_data : UserCreate) (r : Result Token) (db' : Backend) :
  unique_users users ->
  register env (Mongo users) o user_data = (r, db') ->
  exists users', db' = Mongo users' /\ unique_users users'.
Proof.
  intros [Hu He] E. unfold register in E.
  destruct (find_one_username_or_email _ _ users) as [d |] eqn:Ef.
  { injection E as <- <-. eexists. split; [reflexivity | now split]. }
  destruct (hash_password _ _) as [hashed | e].
  2:{ injection E as <- <-. eexists. split; [reflexivity | now split]. }
  injection E as <- <-. eexists. split; [reflexivity |].
  pose proof (List.find_none _ _ Ef) as Hfree. cbn beta in Hfree.
  split; rewrite fmap_app; apply NoDup_app;
    (split; [assumption |]); (split; [| apply NoDup_singleton]);
    intros x Hx Hx'; apply list_elem_of_singleton in Hx'; subst x;
    apply list_elem_of_fmap in Hx as [d [Hd Hin]];
    apply list_elem_of_In, Hfree, orb_false_iff in Hin as [Hn He'];
    simpl in Hd; rewrite Hd in *.
  - now rewrite String.eqb_refl in Hn.
  - now rewrite String.eqb_refl in He'.
Qed.

(** X2: Register, then log in: after a registration that succeeded (with a
    uuid no stored user has), [login] with the same username and password
    returns a token for that very user, and [get_current_user] answers that
    token with the same user. *)
Theorem register_then_login (env : Env) (users : list UserDoc) (o o' : Oracle)
    (user_data : UserCreate) (tok : Token) (db' : Backend) :
  bcrypt_accepts (uc_password user_data) (gensalt o) ->
  (forall d, In d users -> doc_id d <> uuid4 o) ->
  register env (Mongo users) o user_data = (Returned tok, db') ->
  exists tok',
    login env db' o'
      {| ul_username := uc_username user_data;
         ul_password := uc_password user_data |} = Returned tok'
    /\ user tok' = user tok
    /\ get_current_user env db' (now o') (access_token tok')
       = Returned (user tok).
Proof.
  unfold bcrypt_accepts. intros (hashed & Hhash & Hpw) Hfresh E.
  unfold register in E.
  destruct (find_one_username_or_email _ _ users) as [d |] eqn:Ef;
    [discriminate |].
  unfold hash_password in E. rewrite Hhash in E.
  injection E as <- <-. cbn [user id username email created_at].
  assert (Hname : find_one_username (uc_username user_data) users = None).
  { unfold find_one_username.
    destruct (List.find _ users) as [d |] eqn:Ed; [| reflexivity].
    apply List.find_some in Ed as [Hin Hd].
    apply (List.find_none _ _ Ef) in Hin. cbn beta in Hin.
    rewrite Hd in Hin. discriminate. }
  assert (Hid : find_one_id (JStr (uuid4 o)) users = None).
  { unfold find_one_id.
    destruct (List.find _ users) as [d |] eqn:Ed; [| reflexivity].
    apply List.find_some in Ed as [Hin Hd]. simpl in Hd.
    apply String.eqb_eq in Hd. symmetry in Hd. now apply Hfresh in Hin. }
  unfold login, find_one_username in *.
  rewrite (find_app_none _ _ _ Hname). simpl.
  rewrite String.eqb_refl. unfold verify_password.
  cbn [ul_password doc_password]. rewrite Hpw. simpl.
  eexists. split; [reflexivity |]. split; [reflexivity |].
  cbn [access_token]. unfold get_current_user.
  rewrite (decode_issued env (now o') (now o') _ (uuid4 o)
             (subject_payload_sub _)).
  pose proof (whole_seconds_bounds (now o')) as Hb.
  destruct (Z.leb_spec (whole_seconds (now o') + day) (now o')) as [Hle | _];
    [unfold day, seconds in *; lia |].
  simpl. unfold find_one_id in *. rewrite (find_app_none _ _ _ Hid). simpl.
  rewrite String.eqb_refl. reflexivity.
Qed.


End AuthFurther.

(** ** Further properties of [app_login] *)

Section AppLoginFurther.
Context {rt : Runtime}.

Lemma rejected_well_formed (msg : string) :
  msg <> "" -> well_formed_answer (rejected msg).
Proof.
  intros Hne. split; simpl.
  - split; [discriminate | congruence].
  - intros _. now exists msg.
Qed.

(** X7: [app_login] never raises, and its answers are well formed: on every
    path (configuration missing, mock mode, any answer or failure of the
    identity API) it returns a response in which [user_id] is present
    exactly when [authenticated] is true, and a refusal has a message. *)
Theorem app_login_always_answers (env : Env) (db : Backend) (o : Oracle)
    (credentials : AppLoginRequest) :
  exists r, app_login env db o credentials = Returned r /\ well_formed_answer r.
Proof.
  unfold app_login.
  destruct (unset (LOC_API_TOKEN env));
    [eexists; split; [reflexivity | now apply rejected_well_formed] |].
  destruct (unset (MYTRIPS_API_BASEURL env));
    [eexists; split; [reflexivity | now apply rejected_well_formed] |].
  destruct db as [m | users].
  { destruct (_ && _); eexists; (split; [reflexivity |]);
      [| now apply rejected_well_formed].
    split; simpl; [split; [discriminate | reflexivity] | discriminate]. }
  match goal with
  | |- context [try_except ?b ?h] =>
      assert (Hbody : forall r, b = Returned r -> well_formed_answer r);
      [| destruct b as [r | e]; simpl;
         [ exists r; auto
         | destruct e; eexists;
           (split; [reflexivity | now apply rejected_well_formed]) ] ]
  end.
  intros r E.
  apply bind_Returned in E as [[status_code body] [_ E]].
  destruct (Z.eqb status_code 200).
  - apply bind_Returned in E as [data [_ E]].
    apply bind_Returned in E as [a [_ E]].
    apply bind_Returned in E as [u [_ E]].
    apply bind_Returned in E as [msg [_ E]].
    destruct (truthy a && truthy u).
    + apply bind_Returned in E as [msg' [_ E]]. injection E as <-.
      split; simpl; [split; [discriminate | reflexivity] | discriminate].
    + apply bind_Returned in E as [msg' [Hv E]]. injection E as <-.
      split; simpl; [split; [discriminate | congruence] |].
      intros _. unfold py_or in Hv.
      destruct (truthy msg) eqn:Ht.
      * destruct msg; try discriminate. injection Hv as <-.
        eexists. split; [reflexivity |]. simpl in Ht.
        intros ->. discriminate.
      * injection Hv as <-. eexists. split; [reflexivity | discriminate].
  - destruct (_ || _); injection E as <-; now apply rejected_well_formed.
Qed.

(** X8: [app_login] vouches for nobody on its own: outside mock mode an
    authenticated answer is given only when the identity API answered 200
    with a JSON object whose [authenticated] and [user_id] are both truthy,
    and the user id returned is [str] of the upstream one. *)
Theorem app_login_authenticated_only_upstream (env : Env) (db : Backend)
    (o : Oracle) (credentials : AppLoginRequest) (r : AppLoginResponse) :
  MOCK_AUTH_ENABLED db = false ->
  app_login env db o credentials = Returned r ->
  authenticated r = true ->
  exists d a u,
    identity_answer env o credentials = Response 200 (Json (JObj d))
    /\ dict_lookup "authenticated" d = Some a /\ truthy a = true
    /\ dict_lookup "user_id" d = Some u /\ truthy u = true
    /\ user_id r = Some (py_str u).
Proof.
  intros Hdb E Hauth. unfold app_login in E.
  destruct (unset (LOC_API_TOKEN env));
    [injection E as <-; discriminate |].
  destruct (unset (MYTRIPS_API_BASEURL env));
    [injection E as <-; discriminate |].
  destruct db as [m | users]; [discriminate |].
  match type of E with
  | try_except ?b _ = _ => destruct b as [r' | e] eqn:Eb
  end; simpl in E; [| destruct e; injection E as <-; discriminate].
  injection E as ->.
  apply bind_Returned in Eb as [[status_code body] [Hsend Eb]].
  unfold send in Hsend. fold (identity_answer env o credentials) in Hsend.
  destruct (identity_answer env o credentials) as [ | why | s b];
    try discriminate.
  injection Hsend as -> ->.
  destruct (Z.eqb_spec status_code 200) as [-> | Hs];
    [| destruct (_ || _); injection Eb as <-; discriminate].
  apply bind_Returned in Eb as [data [Hjson Eb]].
  destruct body as [text | data']; [discriminate |]. injection Hjson as ->.
  apply bind_Returned in Eb as [a [Ha Eb]].
  destruct data as [ | | | | | d]; try discriminate. injection Ha as <-.
  apply bind_Returned in Eb as [u [Hu Eb]]. injection Hu as <-.
  apply bind_Returned in Eb as [msg [_ Eb]].
  destruct (truthy _ && truthy _) eqn:Hboth.
  2: { apply bind_Returned in Eb as [msg' [_ Eb]].
       injection Eb as <-. discriminate. }
  apply bind_Returned in Eb as [msg' [_ Eb]]. injection Eb as <-.
  apply andb_true_iff in Hboth as [Ta Tu].
  destruct (dict_lookup "authenticated" d) as [a |] eqn:Ea; [| discriminate].
  destruct (dict_lookup "user_id" d) as [u |] eqn:Eu; [| discriminate].
  now exists d, a, u.
Qed.

(** X9: A refusal without an explanation is labelled a success: when the
    identity API answers 200 with a JSON object that has no [message] entry
    and does not authenticate the user, the caller gets authenticated=false
    together with the default message "Authentication successful". *)
Theorem app_login_refusal_default_message (env : Env) (db : Backend)
    (o : Oracle) (credentials : AppLoginRequest) (d : dict) :
  calls_identity_api env db = true ->
  identity_answer env o credentials = Response 200 (Json (JObj d)) ->
  dict_lookup "message" d = None ->
  truthy (default (JBool false) (dict_lookup "authenticated" d))
  && truthy (default JNull (dict_lookup "user_id" d)) = false ->
  app_login env db o credentials
  = Returned {| authenticated := false; user_id := None;
                message := Some "Authentication successful" |}.
Proof.
  unfold calls_identity_api. intros Hc E Hm Hno.
  apply andb_true_iff in Hc as [Hc Hdb]. apply andb_true_iff in Hc as [Ht Hb].
  apply negb_true_iff in Ht, Hb, Hdb.
  destruct db as [mk | users]; [discriminate |].
  unfold identity_answer in E. unfold app_login, send.
  rewrite Ht, Hb, E. simpl. rewrite Hm. simpl. rewrite Hno. reflexivity.
Qed.

End AppLoginFurther.

(** ** Further properties of the user listing *)

Section UsersFurther.
Context {rt : Runtime}.

(** The loop of [get_trackable_users] is [listed] on every entry, or an
    exception as soon as one entry cannot be listed. *)
Lemma users_loop_listed (items : list JSON) :
  forall users,
    match mapM listed items with
    | Some l => users_loop items users = Returned (users ++ l)
    | None => exists e, users_loop items users = Raised e
    end.
Proof.
  induction items as [| user items IH]; intros users.
  - simpl. now rewrite app_nil_r.
  - cbn [mapM users_loop]. set (rest := mapM listed items) in *.
    unfold listed.
    destruct user as [ | | | | | o]; simpl; try (now eexists).
    destruct (truthy (default JNull (dict_lookup "display_name" o))); simpl;
      match goal with
      | |- context [validate_str ?n] => destruct n
      end; simpl; try (now eexists);
      match goal with
      | |- context [users_loop items ?acc] => specialize (IH acc)
      end;
      destruct rest as [l |]; simpl.
    all: try exact IH.
    all: rewrite IH, <- app_assoc; reflexivity.
Qed.

(** X10: The listing is taken whole or not at all: when the location API
    answers 200 with status "success" and a non-empty list of users, the
    endpoint returns one [TrackableUser] per entry, in order, each with
    the status "active" - unless some entry cannot be listed, in which case
    all of them are dropped for the two-user fallback list. *)
Theorem users_listing (env : Env) (db : Backend) (o : Oracle)
    (d dd : dict) (items : list JSON) :
  calls_location_api env db = true ->
  users_answer env o = Response 200 (Json (JObj d)) ->
  dict_lookup "status" d = Some (JStr "success") ->
  dict_lookup "data" d = Some (JObj dd) ->
  dict_lookup "users" dd = Some (JArr items) ->
  items <> [] ->
  get_trackable_users env db o
  = Returned (default fallback_users (mapM listed items)).
Proof.
  unfold calls_location_api, users_answer. intros Hc E Hs Hd Hu Hne.
  apply negb_true_iff in Hc. unfold get_trackable_users, send.
  rewrite Hc, E. simpl. rewrite Hs. simpl. rewrite Hd. simpl. rewrite Hu. simpl.
  destruct items as [| user items]; [contradiction |]. cbn [truthy].
  cbn iota. simpl mbind.
  pose proof (users_loop_listed (user :: items) []) as Hloop.
  destruct (mapM listed (user :: items)) as [l |].
  - rewrite Hloop. reflexivity.
  - destruct Hloop as [e Hloop]. rewrite Hloop. reflexivity.
Qed.

Lemma users_loop_active (items : list JSON) :
  forall users l,
    users_loop items users = Returned l ->
    Forall active users ->
    Forall active l /\ length l = (length users + length items)%nat.
Proof.
  induction items as [| user items IH]; simpl; intros users l E Hact.
  - injection E as <-. split; [assumption | lia].
  - apply bind_Returned in E as [uid [_ E]].
    apply bind_Returned in E as [display_name [_ E]].
    apply bind_Returned in E as [name [_ E]].
    apply bind_Returned in E as [name' [_ E]].
    apply IH in E as [Hl Hlen].
    + split; [assumption |]. rewrite length_app in Hlen. simpl in Hlen. lia.
    + apply Forall_app. split; [assumption |]. now repeat constructor.
Qed.

Lemma truthy_iter_nonempty (u : JSON) (items : list JSON) :
  truthy u = true -> py_iter u = Returned items -> items <> [].
Proof.
  destruct u as [ | | | s | l | o]; cbn [truthy py_iter]; try discriminate.
  - destruct s; [discriminate |]. intros _ E. injection E as <-. discriminate.
  - destruct l; [discriminate |]. intros _ E. now injection E as <-.
  - destruct o as [| [k v] o]; [discriminate |]. intros _ E.
    injection E as <-. intros Hnil. apply fmap_nil_inv in Hnil.
    assert (Hk : k ∈ @nil string).
    { rewrite <- Hnil. change (k ∈ remove_dups (((k, v) :: o).*1)).
      apply elem_of_remove_dups. simpl. left. }
    now apply not_elem_of_nil in Hk.
Qed.

(** X11: Through the location API the endpoint reports active users only, and
    at least one: whatever the API answers, every user returned has the
    status "active" (the other statuses exist in the mock list alone). *)
Theorem users_proxied_active (env : Env) (db : Backend) (o : Oracle)
    (l : list TrackableUser) :
  calls_location_api env db = true ->
  get_trackable_users env db o = Returned l ->
  Forall active l /\ l <> [].
Proof.
  unfold calls_location_api. intros Hc E. apply negb_true_iff in Hc.
  unfold get_trackable_users in E. rewrite Hc in E.
  assert (Hfb : Forall active fallback_users /\ fallback_users <> [])
    by (split; [now repeat constructor | discriminate]).
  match type of E with
  | try_except ?b _ = _ => destruct b as [l' | e] eqn:Eb
  end; simpl in E; injection E as <-; [| exact Hfb].
  apply bind_Returned in Eb as [[status_code body] [_ Eb]].
  destruct (Z.eqb status_code 200); [| injection Eb as <-; exact Hfb].
  apply bind_Returned in Eb as [data [_ Eb]].
  apply bind_Returned in Eb as [status [_ Eb]].
  apply bind_Returned in Eb as [has_users [Hhas Eb]].
  destruct has_users; [| injection Eb as <-; exact Hfb].
  apply bind_Returned in Eb as [dv [Hdv Eb]].
  apply bind_Returned in Eb as [u [Hu Eb]].
  apply bind_Returned in Eb as [items [Hit Eb]].
  destruct (eq_str status "success"); [| discriminate].
  apply bind_Returned in Hhas as [dv' [Hdv' Hhas]].
  apply bind_Returned in Hhas as [u' [Hu' Hhas]].
  injection Hhas as Htruthy.
  destruct data as [ | | | | | d]; try discriminate.
  simpl in Hdv, Hdv'.
  destruct (dict_lookup "data" d) as [x |]; [| discriminate].
  injection Hdv as <-. injection Hdv' as <-.
  destruct x as [ | | | | | dd]; try discriminate. simpl in Hu, Hu'.
  destruct (dict_lookup "users" dd) as [y |]; [| discriminate].
  injection Hu as <-. injection Hu' as <-.
  apply users_loop_active in Eb as [Hact Hlen]; [| constructor].
  split; [assumption |].
  pose proof (truthy_iter_nonempty _ _ Htruthy Hit) as Hne.
  destruct l'; [| discriminate]. destruct items; [contradiction | discriminate].
Qed.

End UsersFurther.

(** ** Further properties of the simulated location *)

Section LocationFurther.
Context {rt : Runtime}.

Lemma uniform_fst (a b : Q) (g : nat -> Z) (x : Q) (g' : nat -> Z) :
  uniform a b g = (x, g') -> x = fst (uniform a b g).
Proof. now intros ->. Qed.

(** The remainder of [fmod] is smaller than the modulus. *)
Lemma fmod_bounds (x m : Q) : (0 < m)%Q -> (- m < fmod x m < m)%Q.
Proof.
  intros Hm. unfold fmod. rewrite Qred_correct. set (q := (x / m)%Q).
  assert (Hx : (x == m * q)%Q) by (unfold q; field; lra).
  destruct (Qle_bool 0 q) eqn:E.
  - pose proof (Qfloor_le q) as Hlo. pose proof (Qlt_floor q) as Hhi.
    rewrite inject_Z_plus in Hhi. change (inject_Z 1) with 1%Q in Hhi.
    set (f := inject_Z (Qfloor q)) in *. split; nra.
  - pose proof (Qle_ceiling q) as Hhi. pose proof (Qceiling_lt q) as Hlo.
    unfold Z.sub in Hlo. rewrite inject_Z_plus in Hlo.
    change (inject_Z (- (1))) with (- (1))%Q in Hlo.
    set (c := inject_Z (Qceiling q)) in *. split; nra.
Qed.

Lemma py_mod_360 (x : Q) : (0 <= py_mod x 360 <= 360)%Q.
Proof.
  unfold py_mod. pose proof (fmod_bounds x 360 ltac:(lra)) as Hr.
  set (r := fmod x 360) in *.
  destruct (Qeq_bool r 0); [split; lra |].
  change (Qneg 360) with false. unfold Qneg.
  destruct (Qle_bool 0 r) eqn:E; cbn [negb Bool.eqb].
  - apply Qle_bool_iff in E. split; lra.
  - assert (Hneg : (r < 0)%Q).
    { apply Qnot_le_lt. intros H. apply Qle_bool_iff in H. congruence. }
    unfold fadd.
    assert (L : (round64 0 <= round64 (r + 360))%Q) by (apply round64_mono; lra).
    assert (U : (round64 (r + 360) <= round64 360)%Q) by (apply round64_mono; lra).
    assert (E0 : (round64 0 == 0)%Q) by qcompute.
    assert (E360 : (round64 360 == 360)%Q) by qcompute.
    split; lra.
Qed.

(** A float sum with a bounded second term lies between the float sums
    with the bounds, and near the first term. *)
Lemma fadd_near (x d c : Q) :
  (Qabs d <= c)%Q ->
  (fadd x (- c) <= fadd x d <= fadd x c)%Q
  /\ (Qabs (fadd x d - x) <= c + eps * (Qabs x + c))%Q.
Proof.
  intros Hd. pose proof Hd as Hd'. apply Qabs_Qle_condition in Hd'. split.
  - split; apply fadd_mono; lra.
  - pose proof (fadd_error x d) as He.
    assert (Hm : (eps * Qabs d <= eps * c)%Q).
    { apply Qmult_le_l; [reflexivity | exact Hd]. }
    lra.
Qed.

(** X12: The simulated readings stay in range: on the mock path the
    heading returned lies between 0 and 360 and the speed between 20 and
    60, whatever the table held; and the first reading of a new id lies
    between the float sums of the reference point (40.7589, -73.9851)
    with -0.01 and with 0.01, in latitude and in longitude, which is
    within 0.01 of the reference point up to the rounding of that
    addition. *)
Theorem mock_location_bounds (env : Env) (w : World) (o : Oracle)
    (user_id : string) (l : LocationData) (w' : World) :
  calls_location_api env (db w) = false ->
  get_user_location env w o user_id = (Returned l, w') ->
  (exists h v, heading l = Some h /\ speed l = Some v
               /\ (0 <= h <= 360)%Q /\ (20 <= v <= 60)%Q)
  /\ (location_state w !! user_id = None ->
      (fadd (double 40.7589) (double (-0.01)) <= lat l
       <= fadd (double 40.7589) (double 0.01))%Q
      /\ (fadd (double (-73.9851)) (double (-0.01)) <= lng l
          <= fadd (double (-73.9851)) (double 0.01))%Q
      /\ (Qabs (lat l - double 40.7589) <= 0.01 + 100 * eps)%Q
      /\ (Qabs (lng l - double (-73.9851)) <= 0.01 + 100 * eps)%Q).
Proof.
  unfold calls_location_api. intros Hc E. apply negb_false_iff in Hc.
  unfold get_user_location in E. rewrite Hc in E.
  destruct (simulate _ _) as [st g] eqn:Es.
  destruct (uniform 20 60 g) as [v g'] eqn:Ev.
  injection E as <- <-. cbn [heading speed lat lng].
  apply uniform_fst in Ev. pose proof (speed_draw g) as Hv. rewrite <- Ev in Hv.
  unfold simulate in Es. split.
  - exists (st_heading st), v.
    split; [reflexivity |]. split; [reflexivity |]. split; [| exact Hv].
    destruct (location_state w !! user_id) as [st0 |].
    + destruct (uniform (double (-0.0005)) (double 0.0005) (rng w)) as [dlat g1].
      destruct (uniform (double (-0.0005)) (double 0.0005) g1) as [dlng g2].
      destruct (uniform (-10) 10 g2) as [dh g3].
      injection Es as <- <-. apply py_mod_360.
    + destruct (uniform (double (-0.01)) (double 0.01) (rng w)) as [dlat g1].
      destruct (uniform (double (-0.01)) (double 0.01) g1) as [dlng g2].
      destruct (uniform 0 360 g2) as [h g3] eqn:Eh.
      injection Es as <- <-. apply uniform_fst in Eh.
      pose proof (heading_draw g2) as Hh. now rewrite <- Eh in Hh.
  - intros Hnew. rewrite Hnew in Es.
    destruct (uniform (double (-0.01)) (double 0.01) (rng w)) as [dlat g1] eqn:E1.
    destruct (uniform (double (-0.01)) (double 0.01) g1) as [dlng g2] eqn:E2.
    destruct (uniform 0 360 g2) as [h g3].
    injection Es as <- <-. cbn [st_lat st_lng].
    apply uniform_fst in E1, E2.
    pose proof (seed_draw (rng w)) as H1. rewrite <- E1 in H1.
    pose proof (seed_draw g1) as H2. rewrite <- E2 in H2.
    assert (Eo : double (-0.01) = (- double 0.01)%Q).
    { change (-0.01)%Q with (Qopp 0.01). apply double_opp. }
    rewrite Eo.
    destruct (fadd_near (double 40.7589) dlat (double 0.01) H1) as [Ha Hb].
    destruct (fadd_near (double (-73.9851)) dlng (double 0.01) H2) as [Ha' Hb'].
    split; [exact Ha |]. split; [exact Ha' |].
    assert (C1 : (double 0.01 + eps * (Qabs (double 40.7589) + double 0.01)
                  <= 0.01 + 100 * eps)%Q) by qcompute.
    assert (C2 : (double 0.01 + eps * (Qabs (double (-73.9851)) + double 0.01)
                  <= 0.01 + 100 * eps)%Q) by qcompute.
    split; lra.
Qed.

(** A call that reaches the fallback of [get_user_location]. *)
Lemma location_failure_falls_back (env : Env) (w : World) (o : Oracle)
    (user_id : string) :
  calls_location_api env (db w) = true ->
  upstream_failed (location_answer env o user_id) = true ->
  get_user_location env w o user_id = location_fallback w o user_id.
Proof.
  unfold calls_location_api, location_answer. intros Hc Hfail.
  apply negb_true_iff in Hc. unfold get_user_location, send. rewrite Hc.
  destruct (net o _) as [ | why | status_code body]; simpl in *;
    try reflexivity.
  apply negb_true_iff in Hfail. now rewrite Hfail.
Qed.

(** X13: During an outage the position stands still: while the location API
    fails, successive calls for one id return the same latitude, longitude
    and heading with speed 0 - the last simulated position of that id, or
    the reference point (40.7589, -73.9851) with heading 0 when it has
    none. *)
Theorem location_outage_stands_still (env : Env) (w : World) (o1 o2 : Oracle)
    (user_id : string) :
  calls_location_api env (db w) = true ->
  upstream_failed (location_answer env o1 user_id) = true ->
  upstream_failed (location_answer env o2 user_id) = true ->
  exists l1 w1 l2 w2,
    get_user_location env w o1 user_id = (Returned l1, w1)
    /\ get_user_location env w1 o2 user_id = (Returned l2, w2)
    /\ lat l2 = lat l1 /\ lng l2 = lng l1 /\ heading l2 = heading l1
    /\ speed l1 = Some 0%Q /\ speed l2 = Some 0%Q
    /\ match location_state w !! user_id with
       | Some st => lat l1 = st_lat st /\ lng l1 = st_lng st
                    /\ heading l1 = Some (st_heading st)
       | None => lat l1 = double 40.7589 /\ lng l1 = double (-73.9851)
                 /\ heading l1 = Some 0%Q
       end.
Proof.
  intros Hc H1 H2.
  rewrite (location_failure_falls_back env w o1 user_id Hc H1).
  unfold location_fallback at 1.
  destruct (location_state w !! user_id) as [st |] eqn:Est.
  - eexists _, _, _, _. split; [reflexivity |].
    rewrite location_failure_falls_back; [| exact Hc | exact H2].
    unfold location_fallback. cbn [location_state]. rewrite Est.
    split; [reflexivity |]. now repeat split.
  - eexists _, _, _, _. split; [reflexivity |].
    rewrite location_failure_falls_back; [| exact Hc | exact H2].
    unfold location_fallback. cbn [location_state].
    rewrite lookup_insert_eq.
    split; [reflexivity |]. now repeat split.
Qed.

(** [get_user_location] touches one entry: the user collection and the
    table entries of all other ids are after the call what they were
    before. *)
Lemma get_user_location_frame (env : Env) (w : World) (o : Oracle)
    (user_id : string) :
  db (snd (get_user_location env w o user_id)) = db w
  /\ forall k, k <> user_id ->
               location_state (snd (get_user_location env w o user_id)) !! k
               = location_state w !! k.
Proof.
  assert (Hfb : db (snd (location_fallback w o user_id)) = db w
                /\ forall k, k <> user_id ->
                     location_state (snd (location_fallback w o user_id)) !! k
                     = location_state w !! k).
  { unfold location_fallback.
    destruct (location_state w !! user_id); simpl; split; try reflexivity.
    intros k Hk. now rewrite lookup_insert_ne. }
  unfold get_user_location. destruct (_ || _).
  - destruct (simulate _ _) as [st g]. destruct (uniform 20 60 g) as [v g'].
    simpl. split; [reflexivity |]. intros k Hk. now rewrite lookup_insert_ne.
  - match goal with
    | |- context [match ?b with Returned _ => _ | Raised _ => _ end] =>
        destruct b as [[l |] | e]
    end; try exact Hfb. simpl. now split.
Qed.

End LocationFurther.

(** ** Further properties of the route history *)

Section HistoryFurther.
Context {rt : Runtime}.

Lemma fallback_history_loop_line (now : Z) (range : list nat) :
  forall cs ts,
    fallback_history_loop now range cs ts
    = (cs ++ (line_point <$> range), ts ++ (line_time now <$> range)).
Proof.
  induction range as [| i range IH]; intros cs ts; simpl.
  - now rewrite !app_nil_r.
  - rewrite IH, <- !app_assoc. reflexivity.
Qed.

Lemma history_failure_falls_back (env : Env) (w : World) (o : Oracle)
    (user_id : string) (limit : Z) (date_from date_to : option string) :
  calls_location_api env (db w) = true ->
  upstream_failed (history_answer env o user_id limit date_from date_to) = true ->
  get_route_history env w o user_id limit date_from date_to
  = (Returned (history_fallback o user_id), w).
Proof.
  unfold calls_location_api, history_answer. intros Hc Hfail.
  apply negb_true_iff in Hc. unfold get_route_history, send. rewrite Hc.
  destruct (net o _) as [ | why | status_code body]; simpl in *;
    try reflexivity.
  apply negb_true_iff in Hfail. now rewrite Hfail.
Qed.

(** X14: The track served during an outage: when the location API fails, the
    history is twenty points on a fixed line from (40.7589, -73.9851), in
    steps of 0.001 and 0.0008 degrees, timed one minute apart up to one
    minute before the request - the same for every user, limit and date
    range - and the state of the process is left as it was. *)
Theorem history_outage_track (env : Env) (w : World) (o : Oracle)
    (user_id : string) (limit : Z) (date_from date_to : option string) :
  calls_location_api env (db w) = true ->
  upstream_failed (history_answer env o user_id limit date_from date_to) = true ->
  get_route_history env w o user_id limit date_from date_to
  = (Returned {| rh_user_id := user_id;
                 coordinates := line_point <$> seq 0 20;
                 timestamps := line_time (now o) <$> seq 0 20 |}, w).
Proof.
  intros Hc Hfail. rewrite history_failure_falls_back by assumption.
  unfold history_fallback. now rewrite fallback_history_loop_line.
Qed.

(** The points of the line stay below 74 degrees in absolute value. *)
Lemma line_bounded (i : nat) :
  (i < 20)%nat -> (Qabs (line_lat i) <= 74)%Q /\ (Qabs (line_lng i) <= 74)%Q.
Proof.
  intros Hi.
  do 20 (destruct i as [| i]; [split; qcompute |]). lia.
Qed.

Lemma mock_history_loop_near (now : Z) (range : list nat) :
  Forall (fun i => (i < 20)%nat) range ->
  forall g cs ts cs' ts' g',
    mock_history_loop now range g cs ts = (cs', ts', g') ->
    exists new,
      cs' = cs ++ new /\ Forall2 near_line range new
      /\ ts' = ts ++ (line_time now <$> range).
Proof.
  induction range as [| i range IH]; intros Hr g cs ts cs' ts' g' E.
  - injection E as <- <- <-. exists []. rewrite !app_nil_r.
    repeat split. constructor.
  - apply Forall_cons in Hr as [Hi Hr]. cbn [mock_history_loop] in E.
    destruct (uniform (double (-0.0002)) (double 0.0002) g) as [jlat g1] eqn:E1.
    destruct (uniform (double (-0.0002)) (double 0.0002) g1) as [jlng g2] eqn:E2.
    apply (IH Hr) in E as (new & -> & Hnear & ->).
    eexists (_ :: new). rewrite <- !app_assoc. split; [reflexivity |].
    split; [| reflexivity]. constructor; [| exact Hnear].
    apply uniform_fst in E1, E2.
    pose proof (jitter_draw g) as H1. rewrite <- E1 in H1.
    pose proof (jitter_draw g1) as H2. rewrite <- E2 in H2.
    fold (line_lat i). fold (line_lng i).
    destruct (fadd_near (line_lat i) jlat (double 0.0002) H1) as [Ha Hb].
    destruct (fadd_near (line_lng i) jlng (double 0.0002) H2) as [Ha' Hb'].
    destruct (line_bounded i Hi) as [B B'].
    assert (Eo : double (-0.0002) = (- double 0.0002)%Q).
    { change (-0.0002)%Q with (Qopp 0.0002). apply double_opp. }
    assert (C : (double 0.0002 + eps * (74 + double 0.0002)
                 <= 0.0002 + 100 * eps)%Q) by qcompute.
    assert (M : (eps * Qabs (line_lat i) <= eps * 74)%Q)
      by (apply Qmult_le_l; [reflexivity | exact B]).
    assert (M' : (eps * Qabs (line_lng i) <= eps * 74)%Q)
      by (apply Qmult_le_l; [reflexivity | exact B']).
    eexists _, _. split; [reflexivity |]. rewrite Eo.
    split; [exact Ha |]. split; [exact Ha' |]. split; lra.
Qed.

(** X15: The simulated track: on the mock path the history is twenty
    points, the i-th between the float sums of the i-th point of the
    fixed line with -0.0002 and with 0.0002, in latitude and in
    longitude, which is within 0.0002 of that point up to the rounding of
    the addition; it is timed like the outage track, and the user
    collection and the location table are not touched. *)
Theorem mock_history_near_line (env : Env) (w : World) (o : Oracle)
    (user_id : string) (limit : Z) (date_from date_to : option string)
    (h : RouteHistory) (w' : World) :
  calls_location_api env (db w) = false ->
  get_route_history env w o user_id limit date_from date_to = (Returned h, w') ->
  rh_user_id h = user_id
  /\ Forall2 near_line (seq 0 20) (coordinates h)
  /\ timestamps h = line_time (now o) <$> seq 0 20
  /\ db w' = db w /\ location_state w' = location_state w.
Proof.
  unfold calls_location_api. intros Hc E. apply negb_false_iff in Hc.
  unfold get_route_history in E. rewrite Hc in E.
  destruct (mock_history_loop _ _ _ _ _) as [[cs ts] g] eqn:El.
  injection E as <- <-.
  apply mock_history_loop_near in El as (new & -> & Hnear & ->).
  - now repeat split.
  - apply Forall_forall. intros i Hi. apply elem_of_seq in Hi. lia.
Qed.

(** The loop over the upstream entries is [sample_of] on every entry, or
    an exception as soon as one entry is not an object. *)
Lemma history_loop_samples (now : Z) (items : list JSON) :
  forall cs ts,
    match mapM (sample_of now) items with
    | Some l => history_loop now items cs ts = Returned (cs ++ l.*1, ts ++ l.*2)
    | None => exists e, history_loop now items cs ts = Raised e
    end.
Proof.
  induction items as [| location items IH]; intros cs ts.
  - simpl. now rewrite !app_nil_r.
  - cbn [mapM history_loop]. set (rest := mapM (sample_of now) items) in *.
    destruct location as [ | | | | | o]; simpl; try (now eexists).
    match goal with
    | |- context [history_loop now items ?a ?b] => specialize (IH a b)
    end.
    destruct rest as [l |]; simpl; [| exact IH].
    rewrite IH, <- !app_assoc. reflexivity.
Qed.

(** X16: The upstream history is taken whole or not at all, and is not cut to
    [limit]: for a 200 answer with a truthy [success] and a non-empty list
    under [data], the endpoint returns one coordinate and one timestamp per
    entry, in order, however many there are - unless some entry is not an
    object, in which case the outage track is returned instead. *)
Theorem history_listing (env : Env) (w : World) (o : Oracle)
    (user_id : string) (limit : Z) (date_from date_to : option string)
    (d : dict) (items : list JSON) :
  calls_location_api env (db w) = true ->
  history_answer env o user_id limit date_from date_to
  = Response 200 (Json (JObj d)) ->
  truthy (default JNull (dict_lookup "success" d)) = true ->
  dict_lookup "data" d = Some (JArr items) ->
  items <> [] ->
  get_route_history env w o user_id limit date_from date_to
  = (Returned match mapM (sample_of (now o)) items with
              | Some l => {| rh_user_id := user_id; coordinates := l.*1;
                             timestamps := l.*2 |}
              | None => history_fallback o user_id
              end, w).
Proof.
  unfold calls_location_api, history_answer. intros Hc E Hs Hd Hne.
  apply negb_true_iff in Hc. unfold get_route_history, send.
  rewrite Hc, E. cbn -[history_loop mapM history_fallback]. rewrite Hs.
  cbn -[history_loop mapM history_fallback]. rewrite Hd.
  destruct items as [| location items]; [contradiction |].
  cbn -[history_loop mapM history_fallback].
  pose proof (history_loop_samples (now o) (location :: items) [] []) as Hloop.
  destruct (mapM (sample_of (now o)) (location :: items)) as [l |].
  - rewrite Hloop. reflexivity.
  - destruct Hloop as [e Hloop]. rewrite Hloop. reflexivity.
Qed.

End HistoryFurther.

(** ** Further properties of the API surface and of the start-up *)

Section SurfaceFurther.
Context {rt : Runtime}.

Lemma get_route_history_frame (env : Env) (w : World) (o : Oracle)
    (user_id : string) (limit : Z) (date_from date_to : option string) :
  db (snd (get_route_history env w o user_id limit date_from date_to)) = db w
  /\ location_state (snd (get_route_history env w o user_id limit date_from
                            date_to))
     = location_state w.
Proof.
  unfold get_route_history. destruct (_ || _); [| now split].
  destruct (mock_history_loop _ _ _ _ _) as [[cs ts] g]. now split.
Qed.

(** X17: The user collection changes by registration only: after any request the
    backend is what it was, unless the request was a registration that
    succeeded, which appended one document - the new user's, holding the
    hash of the password. *)
Theorem collection_changes_by_registration (env : Env) (w : World) (o : Oracle)
    (req : Request) :
  db (snd (serve env w o req)) = db w
  \/ exists user_data users tok doc,
       endpoint req = POST_auth_register user_data
       /\ db w = Mongo users
       /\ fst (serve env w o req) = Returned (AToken tok)
       /\ db (snd (serve env w o req)) = Mongo (users ++ [doc])
       /\ doc_id doc = id (user tok)
       /\ doc_username doc = uc_username user_data
       /\ doc_email doc = uc_email user_data
       /\ hash_password (uc_password user_data) (gensalt o)
          = Returned (doc_password doc).
Proof.
  unfold serve. destruct (endpoint req) as [user_data | | | | | | uid | uid lim df dt]
    eqn:Ereq; try (now left).
  - unfold register. destruct (db w) as [m | users] eqn:Edb;
      [left; now rewrite <- Edb |].
    destruct (find_one_username_or_email _ _ users);
      [left; now rewrite <- Edb |].
    destruct (hash_password _ _) as [hashed | e] eqn:Eh;
      [| left; now rewrite <- Edb].
    right. eexists user_data, users, _, _. simpl. now repeat split.
  - left. pose proof (get_user_location_frame env w o uid) as [Hdb _].
    now destruct (get_user_location env w o uid).
  - left. pose proof (get_route_history_frame env w o uid lim df dt) as [Hdb _].
    now destruct (get_route_history env w o uid lim df dt).
Qed.

(** X18: The location table changes by location requests only, and only at the
    id asked for: the entry of an id is after any request what it was
    before, unless the request was [GET location] for that id. *)
Theorem location_table_changes_by_location (env : Env) (w : World) (o : Oracle)
    (req : Request) (k : string) :
  endpoint req <> GET_location k ->
  location_state (snd (serve env w o req)) !! k = location_state w !! k.
Proof.
  intros Hreq. unfold serve.
  destruct (endpoint req) as [user_data | | | | | | uid | uid lim df dt];
    try reflexivity.
  - now destruct (register env (db w) o user_data).
  - pose proof (get_user_location_frame env w o uid) as [_ Hframe].
    destruct (get_user_location env w o uid) as [r w']. simpl in *.
    apply Hframe. intros ->. now apply Hreq.
  - pose proof (get_route_history_frame env w o uid lim df dt) as [_ Hloc].
    destruct (get_route_history env w o uid lim df dt) as [r w']. simpl in *.
    now rewrite Hloc.
Qed.

End SurfaceFurther.

Section Startup.
Variable valid_uri : string -> bool.

(** X19: The signing key of a started service: it is never empty and never the
    placeholder of the sample configuration; with a database it is the
    configured [JWT_SECRET], the development key being a fallback of mock
    mode alone. *)
Theorem startup_signing_key (environ : gmap string string) (env : Env)
    (store : Store) :
  startup valid_uri environ = Started env store ->
  SECRET_KEY env <> "" /\ SECRET_KEY env <> PLACEHOLDER_SECRET
  /\ match store with
     | Stored _ => environ !! "JWT_SECRET" = Some (SECRET_KEY env)
     | NoStore _ => environ !! "JWT_SECRET" = Some (SECRET_KEY env)
                    \/ SECRET_KEY env = DEV_SECRET
     end.
Proof.
  unfold startup. intros E.
  destruct (negb _ && unset _); [discriminate |].
  destruct (negb _ && negb _); [discriminate |].
  destruct (environ !! "JWT_SECRET") as [secret |] eqn:Es; simpl in E.
  - destruct (String.eqb_spec secret "") as [-> | Hne]; simpl in E.
    + destruct (flag environ "MOCK_AUTH_ENABLED"); [| discriminate].
      injection E as <- <-. simpl.
      split; [discriminate |]. split; [discriminate | now right].
    + destruct (String.eqb_spec secret PLACEHOLDER_SECRET) as [-> | Hnp].
      * destruct (flag environ "MOCK_AUTH_ENABLED"); [| discriminate].
        injection E as <- <-. simpl.
        split; [discriminate |]. split; [discriminate | now right].
      * injection E as <- <-. simpl. split; [assumption |].
        split; [assumption |].
        destruct (flag environ "MOCK_AUTH_ENABLED"); [now left | reflexivity].
  - destruct (flag environ "MOCK_AUTH_ENABLED"); [| discriminate].
    injection E as <- <-. simpl.
    split; [discriminate |]. split; [discriminate | now right].
Qed.

(** X20: Outside mock mode the import fails fast: without a [MONGO_URL] it
    stops with a [ValueError], and when it completes, the store is the
    database at the configured, non-empty URL. *)
Theorem startup_production (environ : gmap string string) :
  flag environ "MOCK_AUTH_ENABLED" = false ->
  (unset (environ !! "MONGO_URL") = true ->
   exists msg, startup valid_uri environ = ValueError msg)
  /\ (forall env store,
         startup valid_uri environ = Started env store ->
         exists handle,
           store = Stored handle
           /\ environ !! "MONGO_URL" = Some (mongo_url handle)
           /\ mongo_url handle <> ""
           /\ valid_uri (mongo_url handle) = true).
Proof.
  intros Hmock. unfold startup. rewrite Hmock. cbn [negb andb]. split.
  - intros ->. now eexists.
  - intros env store E.
    destruct (environ !! "MONGO_URL") as [url |] eqn:Eu; [| discriminate].
    unfold getenv in E. rewrite Eu in E. simpl in E.
    destruct (String.eqb_spec url "") as [-> | Hne]; [discriminate |].
    destruct (valid_uri url) eqn:Ev; [| discriminate]. simpl in E.
    destruct (_ || _); [discriminate |]. injection E as <- <-.
    eexists. now repeat split.
Qed.

End Startup.

Section MockSession.
Context {rt : Runtime}.
Variable valid_uri : string -> bool.

(** X21: Mock mode starts on its own: with [MOCK_AUTH_ENABLED] set, the
    import completes whatever else the environment holds.  When the
    configured (or default) e-mail address is one that [EmailStr]
    accepts, [login] with the configured (or default) username and
    password returns a token, and [get_current_user] answers that token
    with the mock user until it expires, 24 h after the whole second of
    its issuance; with an address that is none, that [login] raises a
    [ValidationError]. *)
Theorem mock_startup_session (environ : gmap string string) (o o' : Oracle) :
  flag environ "MOCK_AUTH_ENABLED" = true ->
  exists env m,
    startup valid_uri environ = Started env (NoStore m)
    /\ MOCK_USERNAME m = getenv environ "MOCK_USERNAME" "testuser"
    /\ MOCK_PASSWORD m = getenv environ "MOCK_PASSWORD" "password123"
    /\ MOCK_USER_EMAIL m
       = getenv environ "MOCK_USER_EMAIL" "testuser@example.com"
    /\ (mock_email_valid m ->
        now o' < whole_seconds (now o) + day ->
        exists tok u,
          login env (MockAuth m) o
            {| ul_username := MOCK_USERNAME m; ul_password := MOCK_PASSWORD m |}
          = Returned tok
          /\ get_current_user env (MockAuth m) (now o') (access_token tok)
             = Returned u
          /\ mock_user m (now o') = Returned u)
    /\ (~ mock_email_valid m ->
        login env (MockAuth m) o
          {| ul_username := MOCK_USERNAME m; ul_password := MOCK_PASSWORD m |}
        = Raised ValidationError).
Proof.
  intros Hmock. unfold startup. rewrite Hmock. cbn [negb andb].
  match goal with
  | |- context [if ?c then Started ?e1 ?s else Started ?e2 ?s] =>
      assert (Hs : exists env, (if c then Started e1 s else Started e2 s)
                               = Started env s)
        by (destruct c; now eexists)
  end.
  destruct Hs as [env Hs]. rewrite Hs.
  eexists env, _. split; [reflexivity |].
  cbn [MOCK_USERNAME MOCK_PASSWORD MOCK_USER_EMAIL].
  split; [reflexivity |]. split; [reflexivity |]. split; [reflexivity |].
  unfold login, mock_email_valid, mock_user.
  cbn [ul_username ul_password MOCK_USERNAME MOCK_PASSWORD MOCK_USER_EMAIL
       MOCK_USER_ID].
  rewrite !String.eqb_refl. cbn [andb].
  destruct (validate_email _) as [email |] eqn:Ev; simpl.
  - split; [| intros Hno; exfalso; apply Hno; now exists email].
    intros _ Ht. eexists _, _. split; [reflexivity |].
    cbn [access_token id]. unfold get_current_user.
    rewrite (decode_issued env (now o) (now o') _ _ (subject_payload_sub _)).
    destruct (Z.leb_spec (whole_seconds (now o) + day) (now o')) as [Hle | _];
      [lia |].
    simpl. rewrite String.eqb_refl. unfold mock_user.
    cbn [MOCK_USER_EMAIL]. rewrite Ev. split; reflexivity.
  - split; [intros [email Hv]; discriminate | reflexivity].
Qed.

End MockSession.

Section Cors.
Variable strip : string -> string.



End Cors.

(** ** The proxied reading *)

Section ReadingFurther.
Context {rt : Runtime}.

(** X23: The proxied reading is the first upstream entry, as it is: for a
    200 answer with a truthy [success] and a list under [data] whose first
    entry is an object with valid numbers, [get_user_location] returns that
    entry's latitude, longitude, speed and bearing, stamped with its
    [server_time] (or the current time when that does not parse) and with
    [str] of its own [user_id] rather than the id asked for; later entries
    are ignored and the process state is left as it was. *)
Theorem location_reading_passthrough (env : Env) (w : World) (o : Oracle)
    (user_id : string) (d location : dict) (others : list JSON)
    (la lo : Q) (v h : option Q) :
  calls_location_api env (db w) = true ->
  location_answer env o user_id = Response 200 (Json (JObj d)) ->
  truthy (default JNull (dict_lookup "success" d)) = true ->
  dict_lookup "data" d = Some (JArr (JObj location :: others)) ->
  to_float (default JNull (dict_lookup "latitude" location)) = Some la ->
  to_float (default JNull (dict_lookup "longitude" location)) = Some lo ->
  validate_opt_float (default JNull (dict_lookup "speed" location)) = Returned v ->
  validate_opt_float (default JNull (dict_lookup "bearing" location)) = Returned h ->
  get_user_location env w o user_id
  = (Returned
       {| ld_user_id := py_str (default JNull (dict_lookup "user_id" location));
          lat := la; lng := lo;
          timestamp :=
            parse_server_time
              (default JNull (dict_lookup "server_time" location)) (now o);
          speed := v; heading := h |},
     w).
Proof.
  unfold calls_location_api, location_answer. intros Hc E Hs Hd Hla Hlo Hv Hh.
  apply negb_true_iff in Hc. unfold get_user_location, send.
  rewrite Hc, E. cbn -[validate_opt_float parse_server_time].
  rewrite Hs. cbn -[validate_opt_float parse_server_time].
  rewrite Hd. cbn -[validate_opt_float parse_server_time].
  unfold validate_float. rewrite Hla, Hlo.
  cbn -[validate_opt_float parse_server_time].
  rewrite Hv. cbn -[validate_opt_float parse_server_time].
  rewrite Hh. reflexivity.
Qed.

End ReadingFurther.

(** ** The further properties at concrete inputs *)

Lemma register_keeps_unique_witness :
  unique_users [alice]
  /\ exists users',
       snd (register (rt := sample_runtime) live_env (Mongo [alice])
              (oracle 2000 Timeout) bob_data) = Mongo users'
       /\ unique_users users'.
Proof.
  assert (Hu : unique_users [alice]) by (split; apply NoDup_singleton).
  split; [exact Hu |].
  apply (register_keeps_unique (rt := sample_runtime) live_env [alice]
           (oracle 2000 Timeout) bob_data
           (fst (register (rt := sample_runtime) live_env (Mongo [alice])
                   (oracle 2000 Timeout) bob_data)) _ Hu).
  reflexivity.
Defined.

Lemma register_then_login_witness :
  exists tok tok',
    fst (register (rt := sample_runtime) live_env (Mongo [alice])
           (oracle 2000 Timeout) bob_data) = Returned tok
    /\ login (rt := sample_runtime) live_env
         (snd (register (rt := sample_runtime) live_env (Mongo [alice])
                 (oracle 2000 Timeout) bob_data))
         (oracle 3000 Timeout)
         {| ul_username := "bob"; ul_password := "builder" |} = Returned tok'
    /\ user tok' = user tok
    /\ get_current_user (rt := sample_runtime) live_env
         (snd (register (rt := sample_runtime) live_env (Mongo [alice])
                 (oracle 2000 Timeout) bob_data))
         3000 (access_token tok') = Returned (user tok).
Proof.
  eexists.
  destruct (register_then_login (rt := sample_runtime) live_env [alice]
              (oracle 2000 Timeout) (oracle 3000 Timeout) bob_data _ _
              (ex_intro _ "saltbuilder" (conj eq_refl eq_refl))
              ltac:(intros d [<- | []]; discriminate)
              eq_refl) as [tok' H].
  exists tok'. split; [reflexivity | exact H].
Defined.

Lemma login_token_authenticates_witness :
  exists tok u,
    login (rt := sample_runtime) live_env (Mongo [alice])
      (oracle 5000900000 Timeout) alice_login = Returned tok
    /\ get_current_user (rt := sample_runtime) live_env (Mongo [alice])
         91399999999 (access_token tok)
       = Returned u
    /\ id u = id (user tok).
Proof.
  eexists.
  destruct (login_token_authenticates (rt := sample_runtime) live_env
              (Mongo [alice]) (oracle 5000900000 Timeout) alice_login _
              91399999999 eq_refl eq_refl) as [u H].
  exists u. split; [reflexivity | exact H].
Defined.

Lemma register_token_authenticates_witness :
  exists tok u,
    fst (register (rt := sample_runtime) live_env (Mongo [alice])
           (oracle 2000 Timeout) bob_data) = Returned tok
    /\ get_current_user (rt := sample_runtime) live_env
         (snd (register (rt := sample_runtime) live_env (Mongo [alice])
                 (oracle 2000 Timeout) bob_data))
         86399999999 (access_token tok) = Returned u
    /\ id u = id (user tok).
Proof.
  eexists.
  destruct (register_token_authenticates (rt := sample_runtime) live_env
              [alice] (oracle 2000 Timeout) bob_data _ _ 86399999999
              eq_refl eq_refl) as [u H].
  exists u. split; [reflexivity | exact H].
Defined.

Lemma app_login_authenticated_only_upstream_witness :
  exists r d a u,
    app_login (rt := sample_runtime) live_env (Mongo [alice])
      (oracle 0 accepting_answer) mock_credentials = Returned r
    /\ authenticated r = true
    /\ identity_answer live_env (oracle 0 accepting_answer) mock_credentials
       = Response 200 (Json (JObj d))
    /\ dict_lookup "authenticated" d = Some a /\ truthy a = true
    /\ dict_lookup "user_id" d = Some u /\ truthy u = true
    /\ user_id r = Some (py_str (Runtime := sample_runtime) u).
Proof.
  eexists.
  destruct (app_login_authenticated_only_upstream (rt := sample_runtime)
              live_env (Mongo [alice]) (oracle 0 accepting_answer)
              mock_credentials _ eq_refl eq_refl eq_refl) as (d & a & u & H).
  exists d, a, u. split; [reflexivity |]. split; [reflexivity | exact H].
Defined.

Lemma app_login_refusal_default_message_witness :
  app_login (rt := sample_runtime) live_env (Mongo [alice])
    (oracle 0 silent_refusal) mock_credentials
  = Returned {| authenticated := false; user_id := None;
                message := Some "Authentication successful" |}.
Proof.
  apply (app_login_refusal_default_message (rt := sample_runtime) live_env
           (Mongo [alice]) (oracle 0 silent_refusal) mock_credentials
           [ ("authenticated", JBool false) ]); reflexivity.
Defined.

Lemma users_listing_witness :
  get_trackable_users (rt := sample_runtime) live_env (Mongo [alice])
    (oracle 0 broken_listing) = Returned fallback_users.
Proof.
  exact (users_listing (rt := sample_runtime) live_env (Mongo [alice])
           (oracle 0 broken_listing) _ _
           [ JObj [ ("id", JNum 7); ("display_name", JStr "Dana") ];
             JObj [ ("id", JNum 8) ] ]
           eq_refl eq_refl eq_refl eq_refl eq_refl
           ltac:(discriminate)).
Defined.

Lemma users_proxied_active_witness :
  exists l,
    get_trackable_users (rt := sample_runtime) live_env (Mongo [alice])
      (oracle 0 listing_answer) = Returned l
    /\ Forall active l /\ l <> [].
Proof.
  eexists. split; [reflexivity |].
  apply (users_proxied_active (rt := sample_runtime) live_env (Mongo [alice])
           (oracle 0 listing_answer)); reflexivity.
Defined.

Lemma mock_location_bounds_witness :
  exists l w',
    get_user_location (rt := sample_runtime) mock_env
      (world (MockAuth sample_mock) steady_draws) (oracle 0 Timeout) "user-42"
    = (Returned l, w')
    /\ (exists h v, heading l = Some h /\ speed l = Some v
                    /\ (0 <= h <= 360)%Q /\ (20 <= v <= 60)%Q)
    /\ (fadd (double 40.7589) (double (-0.01)) <= lat l
        <= fadd (double 40.7589) (double 0.01))%Q
    /\ (fadd (double (-73.9851)) (double (-0.01)) <= lng l
        <= fadd (double (-73.9851)) (double 0.01))%Q
    /\ (Qabs (lat l - double 40.7589) <= 0.01 + 100 * eps)%Q
    /\ (Qabs (lng l - double (-73.9851)) <= 0.01 + 100 * eps)%Q.
Proof.
  eexists _, _. split; [reflexivity |].
  destruct (mock_location_bounds (rt := sample_runtime) mock_env
              (world (MockAuth sample_mock) steady_draws) (oracle 0 Timeout)
              "user-42" _ _ eq_refl eq_refl) as [Hrange Hseed].
  split; [exact Hrange | exact (Hseed eq_refl)].
Defined.

Lemma location_outage_stands_still_witness :
  exists l1 w1 l2 w2,
    get_user_location (rt := sample_runtime) live_env
      (world (Mongo [alice]) steady_draws) (oracle 0 Timeout) "user-42"
    = (Returned l1, w1)
    /\ get_user_location (rt := sample_runtime) live_env w1
         (oracle 60 (Response 502 (NotJson "Bad Gateway"))) "user-42"
       = (Returned l2, w2)
    /\ lat l2 = lat l1 /\ lng l2 = lng l1 /\ heading l2 = heading l1
    /\ speed l1 = Some 0%Q /\ speed l2 = Some 0%Q
    /\ lat l1 = double 40.7589 /\ lng l1 = double (-73.9851)
    /\ heading l1 = Some 0%Q.
Proof.
  exact (location_outage_stands_still (rt := sample_runtime) live_env
           (world (Mongo [alice]) steady_draws) (oracle 0 Timeout)
           (oracle 60 (Response 502 (NotJson "Bad Gateway"))) "user-42"
           eq_refl eq_refl eq_refl).
Defined.

Lemma history_outage_track_witness :
  get_route_history (rt := sample_runtime) live_env
    (world (Mongo [alice]) steady_draws) (oracle 6000 Timeout) "user-42" 100
    None None
  = (Returned {| rh_user_id := "user-42";
                 coordinates := line_point <$> seq 0 20;
                 timestamps := line_time (rt := sample_runtime) 6000 <$> seq 0 20 |},
     world (Mongo [alice]) steady_draws).
Proof.
  apply (history_outage_track (rt := sample_runtime)); reflexivity.
Defined.

Lemma mock_history_near_line_witness :
  exists h w',
    get_route_history (rt := sample_runtime) mock_env
      (world (MockAuth sample_mock) steady_draws) (oracle 6000 Timeout)
      "user-42" 100 None None = (Returned h, w')
    /\ rh_user_id h = "user-42"
    /\ Forall2 near_line (seq 0 20) (coordinates h)
    /\ timestamps h = line_time (rt := sample_runtime) 6000 <$> seq 0 20
    /\ db w' = MockAuth sample_mock /\ location_state w' = ∅.
Proof.
  eexists _, _. split; [reflexivity |].
  apply (mock_history_near_line (rt := sample_runtime) mock_env
           (world (MockAuth sample_mock) steady_draws) (oracle 6000 Timeout)
           "user-42" 100 None None); reflexivity.
Defined.

Lemma history_listing_witness :
  exists h,
    get_route_history (rt := sample_runtime) live_env
      (world (Mongo [alice]) steady_draws) (oracle 6000 history_page)
      "user-42" 1 None None
    = (Returned h, world (Mongo [alice]) steady_draws)
    /\ length (coordinates h) = 2%nat /\ length (timestamps h) = 2%nat.
Proof.
  eexists. split.
  - exact (history_listing (rt := sample_runtime) live_env
             (world (Mongo [alice]) steady_draws) (oracle 6000 history_page)
             "user-42" 1 None None _
             [ JObj [ ("latitude", JNum 40.7); ("longitude", JNum (-73.9));
                      ("server_time", JStr "2024-05-01 10:00:00") ];
               JObj [ ("latitude", JNum 40.8); ("longitude", JNum (-73.8)) ] ]
             eq_refl eq_refl eq_refl eq_refl ltac:(discriminate)).
  - split; reflexivity.
Defined.

Lemma location_table_changes_by_location_witness :
  location_state
    (snd (serve (rt := sample_runtime) mock_env
            (world (MockAuth sample_mock) steady_draws) (oracle 0 Timeout)
            (request (GET_location "user-7") None))) !! "user-42"
  = (∅ : gmap string LocState) !! "user-42".
Proof.
  apply (location_table_changes_by_location (rt := sample_runtime) mock_env
           (world (MockAuth sample_mock) steady_draws) (oracle 0 Timeout)
           (request (GET_location "user-7") None) "user-42").
  discriminate.
Defined.

Lemma startup_signing_key_witness :
  exists env store,
    startup sample_valid_uri live_environ = Started env store
    /\ SECRET_KEY env <> "" /\ SECRET_KEY env <> PLACEHOLDER_SECRET
    /\ SECRET_KEY env = "s3cret".
Proof.
  eexists _, _. split; [reflexivity |].
  destruct (startup_signing_key sample_valid_uri live_environ _ _ eq_refl)
    as (Hne & Hnp & _).
  split; [exact Hne |]. split; [exact Hnp | reflexivity].
Defined.

Lemma startup_production_witness :
  flag live_environ "MOCK_AUTH_ENABLED" = false
  /\ exists env store handle,
       startup sample_valid_uri live_environ = Started env store
       /\ store = Stored handle
       /\ live_environ !! "MONGO_URL" = Some (mongo_url handle)
       /\ mongo_url handle <> ""
       /\ sample_valid_uri (mongo_url handle) = true.
Proof.
  split; [reflexivity |].
  eexists _, _.
  destruct (proj2 (startup_production sample_valid_uri live_environ eq_refl)
              _ _ eq_refl) as [handle H].
  exists handle. split; [reflexivity | exact H].
Defined.

Lemma mock_startup_session_witness :
  exists env m tok u,
    startup sample_valid_uri mock_environ = Started env (NoStore m)
    /\ login (rt := sample_runtime) env (MockAuth m) (oracle 5000900000 Timeout)
         {| ul_username := MOCK_USERNAME m; ul_password := MOCK_PASSWORD m |}
       = Returned tok
    /\ get_current_user (rt := sample_runtime) env (MockAuth m) 91399999999
         (access_token tok)
       = Returned u
    /\ mock_user (rt := sample_runtime) m 91399999999 = Returned u.
Proof.
  destruct (mock_startup_session (rt := sample_runtime) sample_valid_uri
              mock_environ (oracle 5000900000 Timeout)
              (oracle 91399999999 Timeout) eq_refl)
    as (env & m & Hs & _ & _ & He & Hok & _).
  assert (Hv : mock_email_valid (rt := sample_runtime) m).
  { exists "testuser@example.com". rewrite He. reflexivity. }
  destruct (Hok Hv eq_refl) as (tok & u & H).
  exists env, m, tok, u. split; [exact Hs | exact H].
Defined.


Lemma location_reading_passthrough_witness :
  get_user_location (rt := sample_runtime) live_env
    (world (Mongo [alice]) steady_draws) (oracle 7000 reading_answer) "user-42"
  = (Returned {| ld_user_id := "None"; lat := 40.71; lng := -74.01;
                 timestamp := 7000; speed := Some 12.5%Q; heading := None |},
     world (Mongo [alice]) steady_draws).
Proof.
  exact (location_reading_passthrough (rt := sample_runtime) live_env
           (world (Mongo [alice]) steady_draws) (oracle 7000 reading_answer)
           "user-42" _
           [ ("latitude", JNum 40.71); ("longitude", JNum (-74.01));
             ("speed", JNum 12.5) ]
           [ JObj [ ("latitude", JNum 0); ("longitude", JNum 0) ] ]
           40.71%Q (-74.01)%Q (Some 12.5%Q) None
           eq_refl eq_refl eq_refl eq_refl eq_refl eq_refl eq_refl eq_refl).
Defined.
